(** * Land tax assessment extractor: a shallow embedding of [land.py]

    The pipeline of [land.py] reads scanned land-tax notices, extracts
    eight labelled header fields from the recognised text, selects and
    normalises the land-valuation tables, derives a [PID] column and joins
    the header fields onto the table rows by file name.

    Modelling conventions.
    - A Python [str] is a list of one-byte code points (Latin-1); text
      outside that range is not modelled.
    - A pandas cell is [option str]: [None] is NaN.  The table-detection
      service hands over text cells only (a string or NaN).
    - pandas is modelled where the code relies on it: [iloc], the row-wise
      [apply] (no value on a frame with no row), [shift], [str.contains]
      (NaN on NaN), [.loc] with a boolean mask (refused when the mask
      holds NaN), [dropna], [concat] and the left [merge].
    - The two external services (text recognition, table detection) are
      inputs of the model: an uploaded file carries the text each page is
      recognised as and what [tabula.read_pdf] does on it.
    - Code that can raise returns in the [py] monad; the calls to
      streamlit are collected in order as a list of [st_call]. *)

From Stdlib Require Import String Ascii List Bool Arith ZArith Lia.
Import ListNotations.

(** ** Python strings *)

Module Py.

Definition str := list ascii.

Definition lit (s : string) : str := list_ascii_of_string s.

(** [c.lower()] on a code point below 256: the ASCII capitals and the
    Latin-1 capitals (all of 0xC0..0xDE but the multiplication sign) move
    up by 32, everything else is kept. *)
Definition chr_lower (c : ascii) : ascii :=
  let n := nat_of_ascii c in
  if ((65 <=? n) && (n <=? 90))
     || ((192 <=? n) && (n <=? 222) && negb (n =? 215))
  then ascii_of_nat (n + 32)
  else c.

Definition lower (s : str) : str := map chr_lower s.

(** [c.isspace()] below 256. *)
Definition isspace (c : ascii) : bool :=
  let n := nat_of_ascii c in
  ((9 <=? n) && (n <=? 13)) || ((28 <=? n) && (n <=? 32))
  || (n =? 133) || (n =? 160).

Fixpoint startswith (s p : str) {struct p} : bool :=
  match p, s with
  | [], _ => true
  | a :: p', b :: s' => Ascii.eqb a b && startswith s' p'
  | _ :: _, [] => false
  end.

Definition endswith (s p : str) : bool := startswith (rev s) (rev p).

(** [s.find(sub)]: the lowest index where [sub] starts, or [-1]. *)
Fixpoint find_from (s sub : str) (i : Z) : Z :=
  if startswith s sub then i
  else match s with
       | [] => (-1)%Z
       | _ :: s' => find_from s' sub (i + 1)
       end.

Definition find (s sub : str) : Z := find_from s sub 0.

(** [s[:n]] and [s[-n:]] for a length [n].  Python reads [s[-0:]] as
    [s[0:]], the whole string, and clamps a slice that starts before the
    string. *)
Definition slice_to (s : str) (n : nat) : str := firstn n s.

Definition slice_last (s : str) (n : nat) : str :=
  if n =? 0 then s else skipn (length s - n) s.

Fixpoint lstrip (s : str) : str :=
  match s with
  | c :: s' => if isspace c then lstrip s' else s
  | [] => []
  end.

Definition rstrip (s : str) : str := rev (lstrip (rev s)).

Definition strip (s : str) : str := rstrip (lstrip s).

(** Exceptions, and computations that may raise. *)
Inductive exn : Type := TypeError | ValueError.

Inductive py (A : Type) : Type :=
| Ok (a : A)
| Raise (e : exn).

Arguments Ok {A} a.
Arguments Raise {A} e.

Definition bind {A B} (m : py A) (k : A -> py B) : py B :=
  match m with
  | Ok a => k a
  | Raise e => Raise e
  end.

Fixpoint mapM {A B} (f : A -> py B) (l : list A) : py (list B) :=
  match l with
  | [] => Ok []
  | a :: l' =>
      bind (f a) (fun b => bind (mapM f l') (fun bs => Ok (b :: bs)))
  end.

Fixpoint foldM {A S} (f : S -> A -> py S) (l : list A) (s : S) : py S :=
  match l with
  | [] => Ok s
  | a :: l' => bind (f s a) (foldM f l')
  end.

End Py.

Import Py.
Coercion lit : string >-> str.

Declare Scope py_scope.
Delimit Scope py_scope with py.
Notation "x <- m ;; k" := (bind m (fun x => k))
  (at level 61, m at next level, right associativity) : py_scope.
Open Scope string_scope.
Open Scope nat_scope.
Open Scope list_scope.
Open Scope py_scope.

(** ** pandas frames *)

(** A cell: a string, or NaN. *)
Definition cell := option str.

Definition isna (c : cell) : bool :=
  match c with None => true | Some _ => false end.

Definition notna (c : cell) : bool := negb (isna c).

(** [str(c)] *)
Definition str_of (c : cell) : str :=
  match c with
  | Some s => s
  | None => "nan"
  end.

(** A frame as the table-detection service returns it: column labels and
    rows of cells.  pandas keeps frames rectangular ([rectangular]). *)
Record DataFrame : Type := {
  columns : list str;
  data : list (list cell)
}.

Definition rectangular (t : DataFrame) : Prop :=
  Forall (fun r => length r = length (columns t)) (data t).

(** [t.empty]: some axis has length 0. *)
Definition empty (t : DataFrame) : bool :=
  (length (data t) =? 0) || (length (columns t) =? 0).

(** [t.iloc[i, j]] *)
Definition iloc (t : DataFrame) (i j : nat) : option cell :=
  match nth_error (data t) i with
  | Some r => nth_error r j
  | None => None
  end.

(** [t.iloc[n:]] *)
Definition iloc_from (t : DataFrame) (n : nat) : DataFrame :=
  {| columns := columns t; data := skipn n (data t) |}.

(** ** Table Selector *)

(** The condition of the comprehension in
    [filter_tables_by_first_cell_value].  [iloc t 0 0] exists once the
    frame is not empty ([iloc_0_0_defined]). *)
Definition first_cell_matches (target_substring : str) (table : DataFrame) : bool :=
  negb (empty table)
  && (0 <? length (columns table))
  && match iloc table 0 0 with
     | Some c =>
         negb (find (lower (str_of c)) (lower target_substring) =? -1)%Z
     | None => false
     end.

Definition filter_tables_by_first_cell_value
    (tables : list DataFrame) (target_substring : str) : list DataFrame :=
  filter (first_cell_matches target_substring) tables.

(** ** Table Normalizer *)

(** A row of the canonical 11-column frame, named as line 68 renames the
    columns. *)
Record NormalizedRow : Type := {
  Land_Item_No : cell;
  Land_Item_and_Property_ID : cell;
  Notes : cell;
  Pct_Owned : cell;
  Land_Taxable_Value : cell;
  Surcharge_Taxable_Value : cell;
  Year_1 : cell;
  Year_2 : cell;
  Year_3 : cell;
  Average_Land_Value : cell;
  Filename : str
}.

(** Lines 62 to 80: the file name becomes the 11th column and the columns
    are renamed by position.  It is applied to the rows of a frame of 10
    columns, where every row has its 10 cells and the default of [nth] is
    not read. *)
Definition canonical (pdf_filename : str) (r : list cell) : NormalizedRow :=
  {| Land_Item_No := nth 0 r None;
     Land_Item_and_Property_ID := nth 1 r None;
     Notes := nth 2 r None;
     Pct_Owned := nth 3 r None;
     Land_Taxable_Value := nth 4 r None;
     Surcharge_Taxable_Value := nth 5 r None;
     Year_1 := nth 6 r None;
     Year_2 := nth 7 r None;
     Year_3 := nth 8 r None;
     Average_Land_Value := nth 9 r None;
     Filename := pdf_filename |}.

(** A row read back as its 11 cells by position, file name last. *)
Definition cells_of (row : NormalizedRow) : list cell :=
  [ Land_Item_No row; Land_Item_and_Property_ID row; Notes row;
    Pct_Owned row; Land_Taxable_Value row; Surcharge_Taxable_Value row;
    Year_1 row; Year_2 row; Year_3 row; Average_Land_Value row;
    Some (Filename row) ].

Definition set_Year_2 (row : NormalizedRow) (v : cell) : NormalizedRow :=
  {| Land_Item_No := Land_Item_No row;
     Land_Item_and_Property_ID := Land_Item_and_Property_ID row;
     Notes := Notes row;
     Pct_Owned := Pct_Owned row;
     Land_Taxable_Value := Land_Taxable_Value row;
     Surcharge_Taxable_Value := Surcharge_Taxable_Value row;
     Year_1 := Year_1 row;
     Year_2 := v;
     Year_3 := Year_3 row;
     Average_Land_Value := Average_Land_Value row;
     Filename := Filename row |}.

Definition set_Year_3 (row : NormalizedRow) (v : cell) : NormalizedRow :=
  {| Land_Item_No := Land_Item_No row;
     Land_Item_and_Property_ID := Land_Item_and_Property_ID row;
     Notes := Notes row;
     Pct_Owned := Pct_Owned row;
     Land_Taxable_Value := Land_Taxable_Value row;
     Surcharge_Taxable_Value := Surcharge_Taxable_Value row;
     Year_1 := Year_1 row;
     Year_2 := Year_2 row;
     Year_3 := v;
     Average_Land_Value := Average_Land_Value row;
     Filename := Filename row |}.

(** [len(c)]: NaN is a float, which has no length. *)
Definition len (c : cell) : py nat :=
  match c with
  | Some s => Ok (length s)
  | None => Raise TypeError
  end.

(** [c[-n:]] and [c[:n]]: NaN is a float, which cannot be subscripted. *)
Definition last_chars (c : cell) (n : nat) : py cell :=
  match c with
  | Some s => Ok (Some (slice_last s n))
  | None => Raise TypeError
  end.

Definition first_chars (c : cell) (n : nat) : py cell :=
  match c with
  | Some s => Ok (Some (slice_to s n))
  | None => Raise TypeError
  end.

(** The lambda of line 83. *)
Definition year3_lambda (row : NormalizedRow) : py cell :=
  if isna (Year_3 row) && negb (isna (Year_2 row))
  then n <- len (Year_1 row) ;; last_chars (Year_2 row) n
  else Ok (Year_3 row).

(** The lambda of line 84. *)
Definition year2_lambda (row : NormalizedRow) : py cell :=
  if notna (Year_1 row)
  then first_chars (Year_2 row) (length (str_of (Year_1 row)))
  else Ok (Year_2 row).

(** [t[col] = t.apply(f, axis=1)]: the new column is computed row by row
    over the whole frame, then stored. *)
Definition apply_assign
    (f : NormalizedRow -> py cell)
    (set : NormalizedRow -> cell -> NormalizedRow)
    (t : list NormalizedRow) : py (list NormalizedRow) :=
  col <- mapM f t ;;
  Ok (map (fun rv => set (fst rv) (snd rv)) (combine t col)).

(** Lines 83 and 84 on a whole frame. *)
Definition repair (t : list NormalizedRow) : py (list NormalizedRow) :=
  t1 <- apply_assign year3_lambda set_Year_3 t ;;
  apply_assign year2_lambda set_Year_2 t1.

(** What the two lines do to one row: line 84 reads the row line 83 left
    ([repair_rowwise] relates it to [repair]). *)
Definition repair_row (row : NormalizedRow) : py NormalizedRow :=
  y3 <- year3_lambda row ;;
  y2 <- year2_lambda (set_Year_3 row y3) ;;
  Ok (set_Year_2 (set_Year_3 row y3) y2).

(** ** Streamlit output *)

Inductive st_call (R : Type) : Type :=
| st_title (s : str)
| st_error (s : str)
| st_warning (s : str)
| st_text (s : str)
| st_header (s : str)
| st_write (result : R).

Arguments st_title {R} s.
Arguments st_error {R} s.
Arguments st_warning {R} s.
Arguments st_text {R} s.
Arguments st_header {R} s.
Arguments st_write {R} result.

(** An f-string: its pieces, joined. *)
Definition f (pieces : list str) : str := concat pieces.

(** ** Field Extractor *)

(** A Python dict with string keys and values: insertion-ordered, one
    entry per key. *)
Definition dict := list (str * str).

Fixpoint str_eqb (a b : str) : bool :=
  match a, b with
  | [], [] => true
  | x :: a', y :: b' => Ascii.eqb x y && str_eqb a' b'
  | _, _ => false
  end.

(** [d[k] = v] *)
Fixpoint dict_set (d : dict) (k v : str) : dict :=
  match d with
  | [] => [(k, v)]
  | (k', v') :: d' =>
      if str_eqb k' k then (k', v) :: d' else (k', v') :: dict_set d' k v
  end.

(** [d.get(k)] *)
Fixpoint dict_get (d : dict) (k : str) : option str :=
  match d with
  | [] => None
  | (k', v') :: d' => if str_eqb k' k then Some v' else dict_get d' k
  end.

Definition keys (d : dict) : list str := map fst d.

Definition newline : ascii := ascii_of_nat 10.

(** What [.*] takes: everything up to the end of the line. *)
Fixpoint until_newline (s : str) : str :=
  match s with
  | [] => []
  | c :: s' => if Ascii.eqb c newline then [] else c :: until_newline s'
  end.

(** [re.search] under [re.IGNORECASE] for a pattern made of a [label]
    without metacharacters and one group that takes the rest of the line:
    the leftmost place where the label stands, whatever the case of its
    letters; the result is [group(1)], or [None] when the search finds
    nothing. *)
Fixpoint search_label (label text : str) : option str :=
  if startswith (lower text) (lower label)
  then Some (until_newline (skipn (length label) text))
  else match text with
       | [] => None
       | _ :: text' => search_label label text'
       end.

(** The patterns of [main] are all a label free of metacharacters
    followed by the four characters of the rest-of-line group
    ([patterns_shape]); only such patterns are modelled. *)
Definition label_of (pattern_regex : str) : str :=
  firstn (length pattern_regex - 4) pattern_regex.

Definition re_search (pattern_regex text : str) : option str :=
  search_label (label_of pattern_regex) text.

(** Lines 21 to 39.  [pages] is what the recogniser returns page by
    page. *)
Definition read_and_extract_patterns (pages : list str) (patterns : dict) : dict :=
  let text := fold_left (fun text page_text => text ++ page_text) pages [] in
  fold_left
    (fun pattern_values p =>
       let '(pattern_name, pattern_regex) := p in
       let match_ := re_search pattern_regex text in
       dict_set pattern_values pattern_name
         match match_ with
         | Some group1 => strip group1
         | None => lit ""
         end)
    patterns [].

Definition patterns : dict :=
  [ (lit "Name", lit "Name:(.*)");
    (lit "Client ID", lit "Client ID:(.*)");
    (lit "Correspondence ID", lit "Correspondence ID:(.*)");
    (lit "Issue date", lit "Issue date:(.*)");
    (lit "Aggregated taxable land value", lit "Aggregated taxable land value(.*)");
    (lit "Less threshold", lit "Less threshold(.*)");
    (lit "Subtotal", lit "Subtotal(.*)");
    (lit "Total tax payable", lit "Total tax payable(.*)") ].

(** ** Table Extractor Adapter and the per-document step *)

(** What a call to the table-detection service does: it returns the
    frames, or raises an exception that prints as [e]. *)
Inductive outcome (A : Type) : Type :=
| Returns (a : A)
| Fails (e : str).

Arguments Returns {A} a.
Arguments Fails {A} e.

Record UploadedFile : Type := {
  name : str;
  page_texts : list str;
  read_pdf : outcome (list DataFrame)
}.

(** A row of [final_result] after line 160, and after the merge of line
    174: [table_columns] is [None] where the merge found no table row for
    the file name and left every table column NaN. *)
Record ResultRow : Type := {
  item : NormalizedRow;
  PID : cell
}.

Record JoinedRow : Type := {
  fields : dict;
  table_columns : option ResultRow
}.

Inductive frame : Type :=
| Unmerged (rows : list ResultRow)
| Merged (rows : list JoinedRow).

Definition st := st_call frame.

(** The two accumulating lists of [main] and what was printed so far. *)
Record state : Type := {
  appended_tables : list (list NormalizedRow);
  pattern_values_list : list dict;
  screen : list st
}.

Definition say (s : state) (c : st) : state :=
  {| appended_tables := appended_tables s;
     pattern_values_list := pattern_values_list s;
     screen := screen s ++ [c] |}.

Definition append_table (s : state) (t : list NormalizedRow) : state :=
  {| appended_tables := appended_tables s ++ [t];
     pattern_values_list := pattern_values_list s;
     screen := screen s |}.

Definition append_pattern_values (s : state) (d : dict) : state :=
  {| appended_tables := appended_tables s;
     pattern_values_list := pattern_values_list s ++ [d];
     screen := screen s |}.

(** Lines 41 to 48. *)
Definition extract_tables_from_pdf (pdf_file : UploadedFile) (s : state)
  : option (list DataFrame) * state :=
  match read_pdf pdf_file with
  | Returns tables => (Some tables, s)
  | Fails e =>
      (None,
       say s (st_error (f [lit "Error extracting tables from ";
                           name pdf_file; lit ": "; e])))
  end.

(** The body of the loop of [process_and_append_tables], lines 56 to 92. *)
Definition process_table (pdf_filename : str) (s : state) (table : DataFrame)
  : py state :=
  let processed_table := iloc_from table 3 in
  s' <- (if length (columns processed_table) =? 10
         then
           t <- repair (map (canonical pdf_filename) (data processed_table)) ;;
           Ok (append_table s t)
         else
           Ok (say s (st_warning
                        (f [lit "Ignoring table in "; pdf_filename;
                            lit " due to mismatched number of columns."])))) ;;
  Ok (say s' (st_text (f [lit "Processing... "; pdf_filename]))).

(** Lines 54 to 95; clearing the progress container shows nothing. *)
Definition process_and_append_tables
    (filtered_tables : list DataFrame) (pdf_filename : str) (s : state)
  : py state :=
  foldM (process_table pdf_filename) filtered_tables s.

(** The body of the loop of [main], lines 125 to 153. *)
Definition process_pdf (s : state) (pdf_file : UploadedFile) : py state :=
  if negb (endswith (lower (name pdf_file)) (lit ".pdf"))
  then Ok (say s (st_warning (f [lit "Skipping non-PDF file: "; name pdf_file])))
  else
    let pattern_values := read_and_extract_patterns (page_texts pdf_file) patterns in
    let s1 :=
      match pattern_values with
      | _ :: _ =>
          append_pattern_values s
            (dict_set pattern_values (lit "Filename") (name pdf_file))
      | [] =>
          say s (st_warning
                   (f [lit "No values extracted for the specified patterns in ";
                       name pdf_file; lit "."]))
      end in
    let '(tables, s2) := extract_tables_from_pdf pdf_file s1 in
    match tables with
    | Some ((_ :: _) as tables) =>
        let target_substring := lit "Land" in
        let filtered_tables :=
          filter_tables_by_first_cell_value tables target_substring in
        match filtered_tables with
        | _ :: _ =>
            process_and_append_tables filtered_tables (name pdf_file) s2
        | [] =>
            Ok (say s2 (st_warning
                          (f [lit "No tables found with the first cell containing '";
                              target_substring; lit "' in ";
                              name pdf_file; lit "."])))
        end
    | _ => Ok s2
    end.

(** ** Document Aggregator *)

(** [col.shift(-1)] *)
Definition shift_up (col : list cell) : list cell :=
  match col with
  | [] => []
  | _ :: tl => tl ++ [None]
  end.

(** [col.str.contains(pat)] for a [pat] without metacharacters: NaN where
    the cell is NaN. *)
Definition str_contains (pat : str) (col : list cell) : list (option bool) :=
  map (option_map (fun s => negb (find s pat =? -1)%Z)) col.

(** A mask for [.loc]: pandas refuses one that holds NaN. *)
Definition boolean_mask (mask : list (option bool)) : py (list bool) :=
  mapM (fun m => match m with
                 | Some b => Ok b
                 | None => Raise ValueError
                 end) mask.

(** Line 160. *)
Definition add_PID (rows : list NormalizedRow) : list ResultRow :=
  map (fun rp => {| item := fst rp; PID := snd rp |})
      (combine rows (shift_up (map Land_Item_and_Property_ID rows))).

(** Line 161. *)
Definition own_PID (rows : list ResultRow) : py (list ResultRow) :=
  mask <- boolean_mask
            (str_contains (lit "PID")
               (map (fun r => Land_Item_and_Property_ID (item r)) rows)) ;;
  Ok (map (fun br : bool * ResultRow =>
             if fst br
             then {| item := item (snd br);
                     PID := Land_Item_and_Property_ID (item (snd br)) |}
             else snd br)
          (combine mask rows)).

(** Line 164. *)
Definition dropna_Land_Item_No (rows : list ResultRow) : list ResultRow :=
  filter (fun r => notna (Land_Item_No (item r))) rows.

(** Lines 157 to 170: from the concatenated rows to the rows with their
    PID. *)
Definition derive (final_result : list NormalizedRow) : py (list ResultRow) :=
  with_pid <- own_PID (add_PID final_result) ;;
  Ok (dropna_Land_Item_No with_pid).

(** [pd.merge(left, right, on="Filename", how="left")]: every row of
    [left], in order, with each row of [right] of the same file name, or
    alone when there is none. *)
Definition merge_left (left : list dict) (right : list ResultRow)
  : list JoinedRow :=
  flat_map
    (fun d =>
       match filter (fun r => match dict_get d (lit "Filename") with
                              | Some k => str_eqb k (Filename (item r))
                              | None => false
                              end) right with
       | [] => [ {| fields := d; table_columns := None |} ]
       | matching =>
           map (fun r => {| fields := d; table_columns := Some r |}) matching
       end)
    left.

(** Lines 155 to 180.  The reordering of the columns (lines 167 to 170)
    does nothing to rows with named fields. *)
Definition finish (s : state) : py (list st) :=
  match appended_tables s with
  | _ :: _ =>
      final_result <- derive (concat (appended_tables s)) ;;
      let final_result :=
        match pattern_values_list s with
        | _ :: _ => Merged (merge_left (pattern_values_list s) final_result)
        | [] => Unmerged final_result
        end in
      Ok (screen s ++ [st_header (lit "Final Result:"); st_write final_result])
  | [] =>
      Ok (screen s ++
          [st_warning (lit "No tables found in the provided PDF files.")])
  end.

(** The state the loop of [main] starts in: the title is shown, the two
    lists are empty. *)
Definition initial_state : state :=
  {| appended_tables := [];
     pattern_values_list := [];
     screen := [st_title (lit "Land Tax Assessment Data Extractor")] |}.

Definition main (pdf_files : list UploadedFile) : py (list st) :=
  match pdf_files with
  | _ :: _ => s' <- foldM process_pdf pdf_files initial_state ;; finish s'
  | [] => Ok (screen initial_state)
  end.

(** What [main] writes as its final result, if it does. *)
Fixpoint written (out : list st) : option frame :=
  match out with
  | [] => None
  | st_write r :: _ => Some r
  | _ :: out' => written out'
  end.

(** ** Vocabulary of the statements *)

(** [small] is an order-preserving selection of the elements of [big]. *)
Inductive subsequence {A : Type} : list A -> list A -> Prop :=
| subsequence_nil : subsequence [] []
| subsequence_skip : forall x small big,
    subsequence small big -> subsequence small (x :: big)
| subsequence_keep : forall x small big,
    subsequence small big -> subsequence (x :: small) (x :: big).

(** The text holds the word "Land", each letter in either case. *)
Definition contains_Land (text : str) : Prop :=
  exists pre a b c d post,
    text = pre ++ [a; b; c; d] ++ post
    /\ (a = "l"%char \/ a = "L"%char)
    /\ (b = "a"%char \/ b = "A"%char)
    /\ (c = "n"%char \/ c = "N"%char)
    /\ (d = "d"%char \/ d = "D"%char).

(** The Selector's criterion as the specification words it. *)
Definition selectable (t : DataFrame) : Prop :=
  data t <> []
  /\ columns t <> []
  /\ exists c, iloc t 0 0 = Some c /\ contains_Land (str_of c).

(** [label] stands at the head of [s], whatever the case of its letters. *)
Definition stands_at (label s : str) : Prop :=
  exists m rest, s = m ++ rest /\ lower m = lower label.

(** [label] stands somewhere in [text]. *)
Definition occurs_in (label text : str) : Prop :=
  exists pre s, text = pre ++ s /\ stands_at label s.

(** [g] is the rest of the line that [s] starts: up to the first newline
    of [s], or to its end. *)
Definition rest_of_line (s g : str) : Prop :=
  ~ In newline g
  /\ (s = g \/ exists tail, s = g ++ newline :: tail).

(** [v] is [g] without the white space at its two ends. *)
Definition stripped (g v : str) : Prop :=
  exists before after,
    g = before ++ v ++ after
    /\ forallb isspace before = true
    /\ forallb isspace after = true
    /\ (forall c v', v = c :: v' -> isspace c = false)
    /\ (forall c v', v = v' ++ [c] -> isspace c = false).

(** [v] is what the Field Extractor owes for [label] on [text]: the
    stripped rest of the line after the leftmost occurrence of the label,
    or the empty string when the label does not occur. *)
Definition extracted (label text v : str) : Prop :=
  (~ occurs_in label text /\ v = [])
  \/ (exists pre m rest g,
        text = pre ++ m ++ rest
        /\ lower m = lower label
        /\ (forall pre' s, text = pre' ++ s -> length pre' < length pre ->
              ~ stands_at label s)
        /\ rest_of_line rest g
        /\ stripped g v).

(** The eight field names, in the order of the pattern definitions. *)
Definition field_names : list str :=
  [ lit "Name"; lit "Client ID"; lit "Correspondence ID"; lit "Issue date";
    lit "Aggregated taxable land value"; lit "Less threshold";
    lit "Subtotal"; lit "Total tax payable" ].

(** The label each field is searched by. *)
Definition field_labels : list (str * str) :=
  [ (lit "Name", lit "Name:");
    (lit "Client ID", lit "Client ID:");
    (lit "Correspondence ID", lit "Correspondence ID:");
    (lit "Issue date", lit "Issue date:");
    (lit "Aggregated taxable land value", lit "Aggregated taxable land value");
    (lit "Less threshold", lit "Less threshold");
    (lit "Subtotal", lit "Subtotal");
    (lit "Total tax payable", lit "Total tax payable") ].

(** The recognised text of a document: its pages, in order. *)
Definition document_text (pages : list str) : str := concat pages.

(** ** Vocabulary of the Table Normalizer statements *)

(** A row the repair goes through on: the two lambdas find the strings
    they measure and slice. *)
Definition repairable (row : NormalizedRow) : bool :=
  match Year_1 row, Year_2 row, Year_3 row with
  | None, Some _, None => false
  | Some _, None, _ => false
  | _, _, _ => true
  end.

(** A land item row with the given three year cells. *)
Definition year_row (y1 y2 y3 : cell) : NormalizedRow :=
  {| Land_Item_No := Some (lit "1");
     Land_Item_and_Property_ID := Some (lit "LOT 5");
     Notes := None;
     Pct_Owned := Some (lit "100");
     Land_Taxable_Value := Some (lit "1,000,000");
     Surcharge_Taxable_Value := None;
     Year_1 := y1;
     Year_2 := y2;
     Year_3 := y3;
     Average_Land_Value := Some (lit "1,000,000");
     Filename := lit "notice.pdf" |}.

(** ** Vocabulary of the PID statements *)


(** The test of line 161 on a cell that is not NaN. *)
Definition has_PID (c : cell) : bool :=
  match c with
  | Some s => negb (find s (lit "PID") =? -1)%Z
  | None => false
  end.

(** Each row with the "Land Item and Property ID" of the row after it. *)
Fixpoint with_next (rows : list NormalizedRow) : list (NormalizedRow * cell) :=
  match rows with
  | [] => []
  | row :: rest =>
      (row, match rest with
            | [] => None
            | next :: _ => Land_Item_and_Property_ID next
            end) :: with_next rest
  end.

(** The PID a row ends with, given the cell shifted onto it. *)
Definition choose_PID (rn : NormalizedRow * cell) : ResultRow :=
  {| item := fst rn;
     PID := if has_PID (Land_Item_and_Property_ID (fst rn))
            then Land_Item_and_Property_ID (fst rn)
            else snd rn |}.

(** The two rows of the specification's example: a land item and the
    annotation row under it. *)
Definition item_row (no lot : str) : NormalizedRow :=
  {| Land_Item_No := Some no;
     Land_Item_and_Property_ID := Some lot;
     Notes := None;
     Pct_Owned := Some (lit "100");
     Land_Taxable_Value := Some (lit "1,000,000");
     Surcharge_Taxable_Value := None;
     Year_1 := Some (lit "2021");
     Year_2 := Some (lit "2022");
     Year_3 := Some (lit "2023");
     Average_Land_Value := Some (lit "1,000,000");
     Filename := lit "notice.pdf" |}.

Definition annotation_row (pid : str) : NormalizedRow :=
  {| Land_Item_No := None;
     Land_Item_and_Property_ID := Some pid;
     Notes := None;
     Pct_Owned := None;
     Land_Taxable_Value := None;
     Surcharge_Taxable_Value := None;
     Year_1 := None;
     Year_2 := None;
     Year_3 := None;
     Average_Land_Value := None;
     Filename := lit "notice.pdf" |}.

(** ** Vocabulary of the merge and batch statements *)

(** The key a FieldMap is joined on. *)
Definition filename_of (d : dict) : option str := dict_get d (lit "Filename").

Definition same_file (d : dict) (r : ResultRow) : bool :=
  match filename_of d with
  | Some k => str_eqb k (Filename (item r))
  | None => false
  end.

(** The rows of the table side that carry the file name of a FieldMap. *)
Definition rows_of (d : dict) (rows : list ResultRow) : list ResultRow :=
  filter (same_file d) rows.

(** The FieldMaps that no row carries the file name of. *)
Definition fields_only (field_maps : list dict) (rows : list ResultRow) : list dict :=
  filter (fun d => match rows_of d rows with [] => true | _ => false end) field_maps.

(** The test of line 126. *)
Definition is_pdf (pdf_file : UploadedFile) : bool :=
  endswith (lower (name pdf_file)) (lit ".pdf").

(** The file names the loop has stored a FieldMap for, in order, and the
    file names the rows collected so far carry. *)
Definition collected (names : list str) (s : state) : Prop :=
  map filename_of (pattern_values_list s) = map Some names
  /\ Forall (Forall (fun row => In (Filename row) names)) (appended_tables s).

(** ** Example batches *)

Definition banner_cells : list cell :=
  [ Some (lit "Land item details"); None; None; None; None;
    None; None; None; None; None ].

Definition item_cells (no lot : str) : list cell :=
  [ Some no; Some lot; None; Some (lit "100"); Some (lit "1,000,000");
    None; Some (lit "2021"); Some (lit "2022"); Some (lit "2023");
    Some (lit "1,000,000") ].

Definition annotation_cells (pid : str) : list cell :=
  [ None; Some pid; None; None; None; None; None; None; None; None ].

(** A land table as the detection service returns it: three banner rows,
    then three land items, each with its annotation row. *)
Definition land_table : DataFrame :=
  {| columns := map (fun _ => lit "Unnamed") banner_cells;
     data := [ banner_cells; banner_cells; banner_cells;
               item_cells (lit "1") (lit "LOT 5");
               annotation_cells (lit "PID 11111");
               item_cells (lit "2") (lit "LOT 6");
               annotation_cells (lit "PID 22222");
               item_cells (lit "3") (lit "LOT 7");
               annotation_cells (lit "PID 33333") ] |}.

(** A notice with a land table, and one on which nothing is recognised:
    no table and no label. *)
Definition notice : UploadedFile :=
  {| name := lit "notice.pdf";
     page_texts := [ lit "Name: A Person" ++ [newline]
                     ++ lit "Client ID: 123" ++ [newline];
                     lit "Total tax payable $1,500.00" ++ [newline] ];
     read_pdf := Returns [land_table] |}.

Definition blank_notice : UploadedFile :=
  {| name := lit "blank.pdf";
     page_texts := [];
     read_pdf := Returns [] |}.

(** The state after the loop over these two notices, and the rows line
    164 leaves. *)
Definition example_state : state :=
  Eval vm_compute in
    match foldM process_pdf [notice; blank_notice] initial_state with
    | Ok s => s
    | Raise _ => initial_state
    end.

Definition example_rows : list ResultRow :=
  Eval vm_compute in
    match derive (concat (appended_tables example_state)) with
    | Ok rows => rows
    | Raise _ => []
    end.

(** A notice whose land table ends with a land item that has no
    annotation row under it. *)
Definition open_ended_notice : UploadedFile :=
  {| name := lit "open.pdf";
     page_texts := [lit "Name: C Person" ++ [newline]];
     read_pdf :=
       Returns [ {| columns := map (fun _ => lit "Unnamed") banner_cells;
                    data := [ banner_cells; banner_cells; banner_cells;
                              item_cells (lit "1") (lit "LOT 5");
                              annotation_cells (lit "PID 11111");
                              item_cells (lit "2") (lit "LOT 6") ] |} ] |}.

(** A scan the table-detection service fails on, and a file that is not
    named as a PDF. *)
Definition unreadable_notice : UploadedFile :=
  {| name := lit "scan.pdf";
     page_texts := [lit "Name: B Person"];
     read_pdf := Fails (lit "java.io.IOException") |}.

Definition spreadsheet : UploadedFile :=
  {| name := lit "values.xlsx";
     page_texts := [];
     read_pdf := Fails (lit "not a PDF") |}.

(** ** Vocabulary of the further properties *)

(** A row on which one of the two lambdas of lines 83 and 84 meets NaN
    where it needs a string: "Year 3" and "Year 1" missing beside a
    present "Year 2", or "Year 2" missing beside a present "Year 1". *)
Definition unrepairable (row : NormalizedRow) : Prop :=
  (Year_1 row = None /\ Year_2 row <> None /\ Year_3 row = None)
  \/ (Year_1 row <> None /\ Year_2 row = None).

(** The two rows agree on every column but "Year 2" and "Year 3". *)
Definition same_but_years (row row' : NormalizedRow) : Prop :=
  Land_Item_No row' = Land_Item_No row
  /\ Land_Item_and_Property_ID row' = Land_Item_and_Property_ID row
  /\ Notes row' = Notes row
  /\ Pct_Owned row' = Pct_Owned row
  /\ Land_Taxable_Value row' = Land_Taxable_Value row
  /\ Surcharge_Taxable_Value row' = Surcharge_Taxable_Value row
  /\ Year_1 row' = Year_1 row
  /\ Average_Land_Value row' = Average_Land_Value row
  /\ Filename row' = Filename row.

(** [c'] is a cell cut from the front, or from the back, of the cell
    [c]: both missing, or both strings, the first a prefix, or a suffix,
    of the second. *)
Definition prefix_cell (c' c : cell) : Prop :=
  match c', c with
  | None, None => True
  | Some s', Some s => exists post, s = s' ++ post
  | _, _ => False
  end.

Definition suffix_cell (c' c : cell) : Prop :=
  match c', c with
  | Some s', Some s => exists pre, s = pre ++ s'
  | _, _ => False
  end.

(** What the loop stores for one document: the extracted values with the
    file name added as the last key. *)
Definition field_map_of (pdf_file : UploadedFile) : dict :=
  read_and_extract_patterns (page_texts pdf_file) patterns
  ++ [(lit "Filename", name pdf_file)].

(** What one table makes the loop of [process_and_append_tables] show. *)
Definition shown_for (pdf_filename : str) (table : DataFrame) : list st :=
  (if length (columns table) =? 10
   then []
   else [ st_warning (lit "Ignoring table in " ++ pdf_filename
                      ++ lit " due to mismatched number of columns.") ])
  ++ [ st_text (lit "Processing... " ++ pdf_filename) ].

(** A document that has, in a selected table of 10 columns, a row below
    the first three that the repair cannot go through. *)
Definition spoils (pdf_file : UploadedFile) : Prop :=
  is_pdf pdf_file = true
  /\ exists tables table r,
       read_pdf pdf_file = Returns tables
       /\ In table (filter_tables_by_first_cell_value tables (lit "Land"))
       /\ length (columns table) = 10
       /\ In r (skipn 3 (data table))
       /\ unrepairable (canonical (name pdf_file) r).

Definition is_write (c : st) : bool :=
  match c with
  | st_write _ => true
  | _ => false
  end.

(** A stretch of output in which no result is written. *)
Definition no_result (shown : list st) : Prop :=
  Forall (fun c => is_write c = false) shown.

(** The step extends the screen without writing a result. *)
Definition shows_no_result {A : Type} (g : state -> A -> py state) : Prop :=
  forall s a s', g s a = Ok s' ->
    exists shown, screen s' = screen s ++ shown /\ no_result shown.

(** The table rows of a merged frame, in order: its rows without those
    that have no table value. *)
Definition table_rows (joined : list JoinedRow) : list ResultRow :=
  flat_map (fun j => match table_columns j with
                     | Some r => [r]
                     | None => []
                     end) joined.

(** The keys come in blocks that follow the order of the names: every
    key is one of the names, and a key of an earlier name never comes
    after a key of a later one. *)
Inductive in_order : list str -> list str -> Prop :=
| in_order_nil : forall names, in_order names []
| in_order_here : forall n names ks,
    in_order (n :: names) ks -> in_order (n :: names) (n :: ks)
| in_order_skip : forall n names ks,
    ~ In n ks -> in_order names ks -> in_order (n :: names) ks.

(** ** Further example batches *)

(** A notice with a land item whose "Year 1" and "Year 3" cells are empty
    beside a filled "Year 2". *)
Definition spoiled_notice : UploadedFile :=
  {| name := lit "spoiled.pdf";
     page_texts := [lit "Name: D Person" ++ [newline]];
     read_pdf :=
       Returns [ {| columns := map (fun _ => lit "Unnamed") banner_cells;
                    data := [ banner_cells; banner_cells; banner_cells;
                              [ Some (lit "1"); Some (lit "LOT 9"); None;
                                Some (lit "100"); Some (lit "1,000,000"); None;
                                None; Some (lit "980,000"); None;
                                Some (lit "1,000,000") ] ] |} ] |}.

(** What [main] shows for the two notices of the end-to-end example. *)
Definition example_output : list st :=
  Eval vm_compute in
    match main [notice; blank_notice] with
    | Ok out => out
    | Raise _ => []
    end.







(** * Properties *)

(** ** Strings *)

Lemma str_eqb_eq (a b : str) : str_eqb a b = true <-> a = b.
Proof.
  revert b; induction a as [|x a IH]; intros [|y b]; simpl; split;
    try congruence; try reflexivity.
  - intros H. apply andb_true_iff in H as [Hx Hab].
    apply Ascii.eqb_eq in Hx. apply IH in Hab. congruence.
  - intros H. injection H as -> ->. apply andb_true_iff. split.
    + apply Ascii.eqb_refl.
    + now apply IH.
Qed.

Lemma startswith_iff (s p : str) :
  startswith s p = true <-> exists t, s = p ++ t.
Proof.
  revert s; induction p as [|a p IH]; intros s; simpl.
  - split; [intros _; now exists s | reflexivity].
  - destruct s as [|b s].
    + split; [discriminate | intros [t H]; discriminate].
    + rewrite andb_true_iff, Ascii.eqb_eq, IH. split.
      * intros [-> [t ->]]. now exists t.
      * intros [t H]. injection H as -> ->. split; [reflexivity | now exists t].
Qed.

Lemma find_from_found (s sub : str) (i : Z) :
  (0 <= i)%Z ->
  (find_from s sub i <> -1)%Z <-> exists pre post, s = pre ++ sub ++ post.
Proof.
  revert i; induction s as [|a s IH]; intros i Hi; simpl.
  - destruct (startswith [] sub) eqn:E.
    + apply startswith_iff in E as [t E]. split; [|lia].
      intros _. exists [], t. exact E.
    + split; [congruence|]. intros (pre & post & H).
      destruct pre; [|discriminate]. simpl in H.
      assert (startswith [] sub = true) by (apply startswith_iff; eauto).
      congruence.
  - destruct (startswith (a :: s) sub) eqn:E.
    + apply startswith_iff in E as [t E]. split; [|lia].
      intros _. exists [], t. exact E.
    + rewrite (IH (i + 1)%Z) by lia. split.
      * intros (pre & post & ->). now exists (a :: pre), post.
      * intros (pre & post & H). destruct pre as [|b pre].
        -- simpl in H.
           assert (startswith (a :: s) sub = true)
             by (apply startswith_iff; eauto).
           congruence.
        -- injection H as -> ->. eauto.
Qed.

Lemma find_found (s sub : str) :
  (find s sub <> -1)%Z <-> exists pre post, s = pre ++ sub ++ post.
Proof. apply find_from_found. lia. Qed.

Lemma lower_app (a b : str) : lower (a ++ b) = lower a ++ lower b.
Proof. apply map_app. Qed.

Lemma lower_length (a : str) : length (lower a) = length a.
Proof. apply length_map. Qed.

(** Containment of the lowered target in the lowered text is containment
    up to case. *)
Lemma find_lower_found (text target : str) :
  (find (lower text) (lower target) <> -1)%Z <->
  exists pre m post, text = pre ++ m ++ post /\ lower m = lower target.
Proof.
  rewrite find_found. split.
  - intros (pre & post & H). unfold lower in H.
    apply map_eq_app in H as (pre' & r & -> & Hpre & H).
    apply map_eq_app in H as (m & post' & -> & Hm & Hpost).
    now exists pre', m, post'.
  - intros (pre & m & post & -> & Hm).
    exists (lower pre), (lower post). now rewrite !lower_app, Hm.
Qed.

Lemma chr_lower_is (lo up : ascii) :
  In (lo, up) [("l", "L"); ("a", "A"); ("n", "N"); ("d", "D")]%char ->
  forall c, chr_lower c = lo <-> (c = lo \/ c = up).
Proof.
  intros Hin c. simpl in Hin.
  destruct Hin as [H|[H|[H|[H|[]]]]]; injection H as <- <-;
    destruct c as [[] [] [] [] [] [] [] []]; vm_compute;
    (split; [ intros H; first [discriminate H | now left | now right]
            | intros [H|H]; first [discriminate H | reflexivity] ]).
Qed.

Lemma lower_Land (m : str) :
  lower m = lower (lit "Land") <->
  exists a b c d,
    m = [a; b; c; d]
    /\ (a = "l"%char \/ a = "L"%char)
    /\ (b = "a"%char \/ b = "A"%char)
    /\ (c = "n"%char \/ c = "N"%char)
    /\ (d = "d"%char \/ d = "D"%char).
Proof.
  change (lower (lit "Land")) with ["l"; "a"; "n"; "d"]%char.
  split.
  - intros H.
    destruct m as [|a [|b [|c [|d [|e m]]]]]; try discriminate H.
    simpl in H. injection H as Ha Hb Hc Hd.
    exists a, b, c, d. split; [reflexivity|].
    repeat split;
      match goal with
      | |- ?x = ?lo \/ ?x = ?up =>
          apply (chr_lower_is lo up); [simpl; tauto | assumption]
      end.
  - intros (a & b & c & d & -> & Ha & Hb & Hc & Hd). simpl.
    apply (chr_lower_is "l"%char "L"%char) in Ha; [|simpl; tauto].
    apply (chr_lower_is "a"%char "A"%char) in Hb; [|simpl; tauto].
    apply (chr_lower_is "n"%char "N"%char) in Hc; [|simpl; tauto].
    apply (chr_lower_is "d"%char "D"%char) in Hd; [|simpl; tauto].
    congruence.
Qed.

Lemma find_lower_Land (text : str) :
  (find (lower text) (lower (lit "Land")) <> -1)%Z <-> contains_Land text.
Proof.
  rewrite find_lower_found. unfold contains_Land. split.
  - intros (pre & m & post & -> & Hm).
    apply lower_Land in Hm as (a & b & c & d & -> & H).
    now exists pre, a, b, c, d, post.
  - intros (pre & a & b & c & d & post & -> & H).
    exists pre, [a; b; c; d], post. split; [reflexivity|].
    apply lower_Land. now exists a, b, c, d.
Qed.

(** ** Table Selector *)

Lemma subsequence_filter {A : Type} (p : A -> bool) (l : list A) :
  subsequence (filter p l) l.
Proof.
  induction l as [|x l IH]; simpl.
  - constructor.
  - destruct (p x); now constructor.
Qed.

(** On a frame of pandas the first cell exists once no axis is empty. *)
Lemma iloc_0_0_defined (t : DataFrame) :
  rectangular t -> empty t = false -> exists c, iloc t 0 0 = Some c.
Proof.
  unfold rectangular, empty, iloc. intros Hrect Hne.
  apply orb_false_iff in Hne as [Hrows Hcols].
  apply Nat.eqb_neq in Hrows, Hcols.
  destruct (data t) as [|r rows]; [now elim Hrows|].
  apply Forall_inv in Hrect. simpl.
  destruct r as [|c r]; [simpl in Hrect; congruence|].
  now exists c.
Qed.

Lemma first_cell_matches_iff (t : DataFrame) :
  first_cell_matches (lit "Land") t = true <-> selectable t.
Proof.
  unfold first_cell_matches, selectable, empty.
  rewrite !andb_true_iff, negb_true_iff, orb_false_iff, !Nat.eqb_neq, Nat.ltb_lt.
  split.
  - intros [[[Hrows Hcols] _] Hcell]. repeat split.
    + intros E. now rewrite E in Hrows.
    + intros E. now rewrite E in Hcols.
    + destruct (iloc t 0 0) as [c|]; [|discriminate].
      exists c. split; [reflexivity|].
      apply find_lower_Land. apply negb_true_iff, Z.eqb_neq in Hcell. exact Hcell.
  - intros (Hrows & Hcols & c & Hc & Hland). repeat split.
    + destruct (data t); [congruence | discriminate].
    + destruct (columns t); [congruence | discriminate].
    + destruct (columns t); [congruence | simpl; lia].
    + rewrite Hc. apply negb_true_iff, Z.eqb_neq. now apply find_lower_Land.
Qed.

(** C6: a table is selected under the keyword "Land" exactly when it has a
    row, has a column, and the text of its first cell holds the word in
    any case; the selection keeps the order of the input (it is an
    order-preserving sub-list and distributes over concatenation); a table
    whose first cell is "LAND TAX LIABILITY" is selected and one whose
    first cell is "Rates Summary" is not. *)
Theorem selector_selects_land_tables (tables : list DataFrame) :
  let selected := filter_tables_by_first_cell_value tables (lit "Land") in
  (forall t, In t selected <-> In t tables /\ selectable t)
  /\ subsequence selected tables
  /\ (forall more,
        filter_tables_by_first_cell_value (tables ++ more) (lit "Land")
        = selected ++ filter_tables_by_first_cell_value more (lit "Land"))
  /\ (forall t, In t tables -> rectangular t ->
        iloc t 0 0 = Some (Some (lit "LAND TAX LIABILITY")) -> In t selected)
  /\ (forall t, iloc t 0 0 = Some (Some (lit "Rates Summary")) ->
        ~ In t selected).
Proof.
  unfold filter_tables_by_first_cell_value. cbv zeta.
  split; [|split; [|split; [|split]]].
  - intros t. rewrite filter_In. now rewrite first_cell_matches_iff.
  - apply subsequence_filter.
  - intros more. apply filter_app.
  - intros t Hin Hrect Hcell. apply filter_In. split; [exact Hin|].
    unfold first_cell_matches. rewrite Hcell.
    assert (Hd : data t <> []).
    { unfold iloc in Hcell. destruct (data t); [discriminate | discriminate]. }
    assert (Hc : columns t <> []).
    { unfold iloc in Hcell. unfold rectangular in Hrect.
      destruct (data t) as [|r rows]; [discriminate|].
      apply Forall_inv in Hrect. simpl in Hcell.
      destruct r; [discriminate|]. simpl in Hrect.
      destruct (columns t); [discriminate | discriminate]. }
    unfold empty.
    destruct (data t); [congruence|]. destruct (columns t); [congruence|].
    reflexivity.
  - intros t Hcell Hin. apply filter_In in Hin as [_ Hp].
    unfold first_cell_matches in Hp. rewrite Hcell in Hp.
    rewrite !andb_true_iff in Hp. destruct Hp as [_ Hp].
    vm_compute in Hp. discriminate.
Qed.

(** ** The [py] monad *)

Lemma mapM_cons {A B} (g : A -> py B) (a : A) (l : list A) :
  mapM g (a :: l) = (b <- g a ;; bs <- mapM g l ;; Ok (b :: bs)).
Proof. reflexivity. Qed.

Lemma mapM_Ok_Forall2 {A B} (g : A -> py B) (l : list A) (l' : list B) :
  mapM g l = Ok l' <-> Forall2 (fun a b => g a = Ok b) l l'.
Proof.
  revert l'; induction l as [|a l IH]; intros l'; simpl.
  - split.
    + intros H. injection H as <-. constructor.
    + intros H. inversion H. reflexivity.
  - split.
    + destruct (g a) as [b|e] eqn:Ea; simpl; [|discriminate].
      destruct (mapM g l) as [bs|e] eqn:El; simpl; [|discriminate].
      intros H. injection H as <-. constructor; [exact Ea | now apply IH].
    + intros H. inversion H as [|a0 b l0 bs Ha Hl]; subst.
      rewrite Ha. simpl. apply IH in Hl. rewrite Hl. reflexivity.
Qed.

Lemma mapM_Raise {A B} (g : A -> py B) (l : list A) (e : exn) :
  mapM g l = Raise e -> exists a, In a l /\ g a = Raise e.
Proof.
  induction l as [|a l IH]; simpl; [discriminate|].
  destruct (g a) as [b|e'] eqn:Ea; simpl.
  - destruct (mapM g l) as [bs|e'] eqn:El; simpl; [discriminate|].
    intros H. injection H as ->. destruct (IH eq_refl) as (x & Hx & Hgx).
    exists x. split; [now right | exact Hgx].
  - intros H. injection H as ->. exists a. split; [now left | exact Ea].
Qed.

Lemma mapM_total {A B} (g : A -> py B) (l : list A) :
  (forall a, In a l -> exists b, g a = Ok b) -> exists l', mapM g l = Ok l'.
Proof.
  induction l as [|a l IH]; intros H; simpl.
  - now exists [].
  - destruct (H a (or_introl eq_refl)) as [b ->].
    destruct IH as [bs ->]; [intros x Hx; apply H; now right|].
    now exists (b :: bs).
Qed.

Lemma mapM_fails {A B} (g : A -> py B) (l : list A) (a : A) (e : exn) :
  In a l -> g a = Raise e -> exists e', mapM g l = Raise e'.
Proof.
  intros Hin Ha. induction l as [|x l IH]; [contradiction|].
  simpl. destruct Hin as [->|Hin].
  - rewrite Ha. now exists e.
  - destruct (g x) as [b|e1]; simpl; [|now exists e1].
    destruct (IH Hin) as [e' ->]. now exists e'.
Qed.

(** ** Table Normalizer *)

Lemma set_Year_2_same (row : NormalizedRow) : set_Year_2 row (Year_2 row) = row.
Proof. now destruct row. Qed.

Lemma set_Year_3_same (row : NormalizedRow) : set_Year_3 row (Year_3 row) = row.
Proof. now destruct row. Qed.

Lemma year3_lambda_exn (row : NormalizedRow) (e : exn) :
  year3_lambda row = Raise e -> e = TypeError.
Proof.
  unfold year3_lambda, len, last_chars.
  destruct (isna (Year_3 row) && negb (isna (Year_2 row))); [|discriminate].
  destruct (Year_1 row); simpl; [|congruence].
  destruct (Year_2 row); congruence.
Qed.

Lemma year2_lambda_exn (row : NormalizedRow) (e : exn) :
  year2_lambda row = Raise e -> e = TypeError.
Proof.
  unfold year2_lambda, first_chars.
  destruct (notna (Year_1 row)); [|discriminate].
  destruct (Year_2 row); congruence.
Qed.

Lemma repair_row_exn (row : NormalizedRow) (e : exn) :
  repair_row row = Raise e -> e = TypeError.
Proof.
  unfold repair_row.
  destruct (year3_lambda row) as [y3|e3] eqn:E3; simpl.
  - destruct (year2_lambda (set_Year_3 row y3)) as [y2|e2] eqn:E2; simpl.
    + discriminate.
    + intros H. injection H as <-. eapply year2_lambda_exn; eassumption.
  - intros H. injection H as <-. eapply year3_lambda_exn; eassumption.
Qed.

Lemma apply_assign_cons
    (g : NormalizedRow -> py cell) (set : NormalizedRow -> cell -> NormalizedRow)
    (row : NormalizedRow) (t : list NormalizedRow) :
  apply_assign g set (row :: t)
  = (v <- g row ;; t' <- apply_assign g set t ;; Ok (set row v :: t')).
Proof.
  unfold apply_assign. simpl.
  destruct (g row); simpl; [|reflexivity].
  destruct (mapM g t); reflexivity.
Qed.

Lemma apply_assign_exn
    (g : NormalizedRow -> py cell) (set : NormalizedRow -> cell -> NormalizedRow)
    (t : list NormalizedRow) (e : exn) :
  (forall row e', g row = Raise e' -> e' = TypeError) ->
  apply_assign g set t = Raise e -> e = TypeError.
Proof.
  intros Hg. unfold apply_assign.
  destruct (mapM g t) as [col|e'] eqn:E; simpl; [discriminate|].
  intros H. injection H as <-.
  apply mapM_Raise in E as (row & _ & Hrow). eapply Hg; eassumption.
Qed.

(** The two column assignments of lines 83 and 84 come to repairing the
    rows one by one. *)
Lemma repair_rowwise (t : list NormalizedRow) : repair t = mapM repair_row t.
Proof.
  induction t as [|row t IH]; [reflexivity|].
  rewrite mapM_cons, <- IH. unfold repair, repair_row.
  rewrite apply_assign_cons.
  destruct (year3_lambda row) as [y3|e3] eqn:E3; simpl; [|reflexivity].
  destruct (apply_assign year3_lambda set_Year_3 t) as [t1|e1] eqn:E1; simpl.
  - rewrite apply_assign_cons.
    destruct (year2_lambda (set_Year_3 row y3)) as [y2|e2]; simpl; [|reflexivity].
    destruct (apply_assign year2_lambda set_Year_2 t1); reflexivity.
  - apply apply_assign_exn in E1; [|apply year3_lambda_exn]. subst e1.
    destruct (year2_lambda (set_Year_3 row y3)) as [y2|e2] eqn:E2; simpl.
    + reflexivity.
    + apply year2_lambda_exn in E2. now subst e2.
Qed.

Lemma repair_singleton (row : NormalizedRow) :
  repair [row] = (row' <- repair_row row ;; Ok [row']).
Proof.
  rewrite repair_rowwise. simpl. now destruct (repair_row row).
Qed.

Lemma repair_row_Filename (row row' : NormalizedRow) :
  repair_row row = Ok row' -> Filename row' = Filename row.
Proof.
  unfold repair_row.
  destruct (year3_lambda row) as [y3|]; simpl; [|discriminate].
  destruct (year2_lambda (set_Year_3 row y3)) as [y2|]; simpl; [|discriminate].
  intros H. injection H as <-. reflexivity.
Qed.

Lemma repair_row_total (row : NormalizedRow) :
  repairable row = true <-> exists row', repair_row row = Ok row'.
Proof.
  unfold repairable, repair_row, year3_lambda, year2_lambda, len, last_chars,
    first_chars, notna, isna.
  destruct row as [a b c d e g [y1|] [y2|] [y3|] h fn]; simpl; split;
    try discriminate; try (intros _; eexists; reflexivity);
    try reflexivity; intros [row' H]; discriminate H.
Qed.

Lemma firstn_same_iff {A : Type} (n : nat) (l : list A) :
  firstn n l = l <-> length l <= n.
Proof.
  split.
  - intros H. apply (f_equal (@length A)) in H.
    rewrite length_firstn in H. lia.
  - apply firstn_all2.
Qed.

Lemma set_Year_2_eq (row : NormalizedRow) (v : cell) :
  Year_2 row = v -> set_Year_2 row v = row.
Proof. intros <-. apply set_Year_2_same. Qed.

Lemma set_Year_3_eq (row : NormalizedRow) (v : cell) :
  Year_3 row = v -> set_Year_3 row v = row.
Proof. intros <-. apply set_Year_3_same. Qed.

(** With "Year 3" present, line 83 leaves the row as it is. *)
Lemma repair_row_year3_kept (row : NormalizedRow) (y3 : str) :
  Year_3 row = Some y3 ->
  repair_row row = (y2 <- year2_lambda row ;; Ok (set_Year_2 row y2)).
Proof.
  intros H3. unfold repair_row, year3_lambda. rewrite H3.
  cbn [isna andb bind]. now rewrite (set_Year_3_eq row _ H3).
Qed.

Lemma repair_row_year3_present (row : NormalizedRow) (y1 y2 y3 : str) :
  Year_1 row = Some y1 -> Year_2 row = Some y2 -> Year_3 row = Some y3 ->
  repair_row row = Ok (set_Year_2 row (Some (firstn (length y1) y2))).
Proof.
  intros H1 H2 H3. rewrite (repair_row_year3_kept row y3 H3).
  unfold year2_lambda. rewrite H1, H2. reflexivity.
Qed.

(** C2, as the specification states it, fails: a row whose "Year 3" is
    present and whose "Year 2" is longer than its "Year 1" comes out with
    "Year 2" cut to the length of "Year 1"; and with "Year 2" missing
    beside a present "Year 1" the repair raises. *)
Lemma repair_cuts_year2_beside_year3 :
  notna (Year_3 (year_row (Some (lit "950,000")) (Some (lit "1,050,000"))
                          (Some (lit "1,100,000")))) = true
  /\ repair_row (year_row (Some (lit "950,000")) (Some (lit "1,050,000"))
                          (Some (lit "1,100,000")))
     = Ok (year_row (Some (lit "950,000")) (Some (lit "1,050,0"))
                    (Some (lit "1,100,000")))
  /\ repair_row (year_row (Some (lit "950,000")) (Some (lit "1,050,000"))
                          (Some (lit "1,100,000")))
     <> Ok (year_row (Some (lit "950,000")) (Some (lit "1,050,000"))
                     (Some (lit "1,100,000")))
  /\ repair [year_row (Some (lit "950,000")) (Some (lit "1,050,000"))
                      (Some (lit "1,100,000"))]
     = Ok [year_row (Some (lit "950,000")) (Some (lit "1,050,0"))
                    (Some (lit "1,100,000"))]
  /\ repair_row (year_row (Some (lit "950,000")) None (Some (lit "1,100,000")))
     = Raise TypeError.
Proof.
  split; [reflexivity|]. split; [reflexivity|].
  split; [vm_compute; discriminate|]. split; reflexivity.
Qed.

(** C2, amended: on a row whose "Year 3" is present the repair changes no
    column but "Year 2"; it changes nothing at all when "Year 1" is
    missing; when "Year 1" and "Year 2" are both present it cuts "Year 2"
    to its first len("Year 1") characters, so that the row is unmodified
    exactly when "Year 2" is no longer than "Year 1". *)
Theorem repair_with_year3_present (row : NormalizedRow) (y3 : str) :
  Year_3 row = Some y3 ->
  (Year_1 row = None -> repair_row row = Ok row)
  /\ (forall y1 y2, Year_1 row = Some y1 -> Year_2 row = Some y2 ->
        repair_row row = Ok (set_Year_2 row (Some (firstn (length y1) y2)))
        /\ (repair_row row = Ok row <-> length y2 <= length y1))
  /\ (forall row', repair_row row = Ok row' ->
        Year_3 row' = Some y3 /\ row' = set_Year_2 row (Year_2 row')).
Proof.
  intros H3. split; [|split].
  - intros H1. rewrite (repair_row_year3_kept row y3 H3).
    unfold year2_lambda. rewrite H1. cbn [notna isna negb bind].
    now rewrite set_Year_2_same.
  - intros y1 y2 H1 H2.
    rewrite (repair_row_year3_present row y1 y2 y3 H1 H2 H3).
    split; [reflexivity|]. rewrite <- firstn_same_iff. split.
    + intros H. injection H as H. apply (f_equal Year_2) in H.
      simpl in H. rewrite H2 in H. now injection H.
    + intros E. rewrite E. f_equal. now apply set_Year_2_eq.
  - intros row'. rewrite (repair_row_year3_kept row y3 H3).
    destruct (year2_lambda row) as [v|]; cbn [bind]; [|discriminate].
    intros H. injection H as <-. now split.
Qed.

Lemma repair_with_year3_present_witness :
  Year_3 (year_row (Some (lit "950,000")) (Some (lit "1,050,000"))
                   (Some (lit "1,100,000"))) = Some (lit "1,100,000")
  /\ (forall y1 y2,
        Year_1 (year_row (Some (lit "950,000")) (Some (lit "1,050,000"))
                         (Some (lit "1,100,000"))) = Some y1 ->
        Year_2 (year_row (Some (lit "950,000")) (Some (lit "1,050,000"))
                         (Some (lit "1,100,000"))) = Some y2 ->
        repair_row (year_row (Some (lit "950,000")) (Some (lit "1,050,000"))
                             (Some (lit "1,100,000")))
        = Ok (set_Year_2
                (year_row (Some (lit "950,000")) (Some (lit "1,050,000"))
                          (Some (lit "1,100,000")))
                (Some (firstn (length y1) y2)))
        /\ (repair_row (year_row (Some (lit "950,000")) (Some (lit "1,050,000"))
                                 (Some (lit "1,100,000")))
            = Ok (year_row (Some (lit "950,000")) (Some (lit "1,050,000"))
                           (Some (lit "1,100,000")))
            <-> length y2 <= length y1)).
Proof.
  split; [reflexivity|].
  apply (repair_with_year3_present
           (year_row (Some (lit "950,000")) (Some (lit "1,050,000"))
                     (Some (lit "1,100,000")))
           (lit "1,100,000")).
  reflexivity.
Defined.

(** C3, as the specification states it, fails: when "Year 1" is longer
    than "Year 2" the repaired "Year 3" is the whole of "Year 2", and
    "Year 2" has no trailing substring as long as "Year 1"; and with
    "Year 1" missing the repair raises and sets nothing. *)
Lemma repair_year3_not_of_year1_length :
  repair_row (year_row (Some (lit "1,200,000")) (Some (lit "900,000")) None)
  = Ok (year_row (Some (lit "1,200,000")) (Some (lit "900,000"))
                 (Some (lit "900,000")))
  /\ length (lit "900,000") <> length (lit "1,200,000")
  /\ (forall pre y3, lit "900,000" = pre ++ y3 ->
        length y3 <> length (lit "1,200,000"))
  /\ repair [year_row (Some (lit "1,200,000")) (Some (lit "900,000")) None]
     = Ok [year_row (Some (lit "1,200,000")) (Some (lit "900,000"))
                    (Some (lit "900,000"))]
  /\ repair_row (year_row None (Some (lit "20222023")) None) = Raise TypeError.
Proof.
  split; [reflexivity|]. split; [vm_compute; lia|].
  split; [|split; reflexivity].
  intros pre y3 H Hlen.
  assert (L : length (lit "900,000") = length pre + length y3)
    by (rewrite H; apply length_app).
  change (length (lit "900,000")) with 7 in L.
  change (length (lit "1,200,000")) with 9 in Hlen.
  lia.
Qed.

(** C3, amended: on a row where "Year 3" is missing and "Year 1" and
    "Year 2" are present, the repair sets "Year 3" to the last
    len("Year 1") characters of "Year 2" (to the whole of "Year 2" when
    "Year 1" is empty or not shorter than "Year 2") and then cuts "Year 2"
    to its first len("Year 1") characters; with "2022", "20222023" and a
    missing "Year 3" the result is "Year 3" = "2023", "Year 2" = "2022". *)
Theorem repair_fills_year3 :
  (forall (row : NormalizedRow) (y1 y2 : str),
      Year_3 row = None -> Year_2 row = Some y2 -> Year_1 row = Some y1 ->
      exists y3 y2',
        repair_row row = Ok (set_Year_2 (set_Year_3 row (Some y3)) (Some y2'))
        /\ (exists pre, y2 = pre ++ y3)
        /\ (exists post, y2 = y2' ++ post)
        /\ length y2' = Nat.min (length y1) (length y2)
        /\ (0 < length y1 -> length y3 = Nat.min (length y1) (length y2))
        /\ (length y1 = 0 -> y3 = y2))
  /\ repair_row (year_row (Some (lit "2022")) (Some (lit "20222023")) None)
     = Ok (year_row (Some (lit "2022")) (Some (lit "2022")) (Some (lit "2023"))).
Proof.
  split; [|reflexivity].
  intros row y1 y2 H3 H2 H1.
  exists (slice_last y2 (length y1)), (firstn (length y1) y2).
  split; [|split; [|split; [|split; [|split]]]].
  - unfold repair_row, year3_lambda. rewrite H3, H2, H1.
    cbn [isna negb andb len last_chars bind].
    unfold year2_lambda. cbn [set_Year_3 Year_1 Year_2]. rewrite H1, H2.
    reflexivity.
  - unfold slice_last. destruct (length y1 =? 0).
    + now exists [].
    + exists (firstn (length y2 - length y1) y2).
      symmetry. apply firstn_skipn.
  - exists (skipn (length y1) y2). symmetry. apply firstn_skipn.
  - apply length_firstn.
  - intros Hpos. unfold slice_last.
    destruct (length y1 =? 0) eqn:E; [apply Nat.eqb_eq in E; lia|].
    rewrite length_skipn. lia.
  - intros H0. unfold slice_last. now rewrite H0.
Qed.

Lemma repair_fills_year3_witness :
  Year_3 (year_row (Some (lit "2022")) (Some (lit "20222023")) None) = None
  /\ exists y3 y2',
      repair_row (year_row (Some (lit "2022")) (Some (lit "20222023")) None)
      = Ok (set_Year_2
              (set_Year_3 (year_row (Some (lit "2022")) (Some (lit "20222023")) None)
                          (Some y3))
              (Some y2'))
      /\ (exists pre, lit "20222023" = pre ++ y3)
      /\ (exists post, lit "20222023" = y2' ++ post)
      /\ length y2' = Nat.min (length (lit "2022")) (length (lit "20222023"))
      /\ (0 < length (lit "2022") ->
          length y3 = Nat.min (length (lit "2022")) (length (lit "20222023")))
      /\ (length (lit "2022") = 0 -> y3 = lit "20222023").
Proof.
  split; [reflexivity|].
  apply (proj1 repair_fills_year3
           (year_row (Some (lit "2022")) (Some (lit "20222023")) None)
           (lit "2022") (lit "20222023")); reflexivity.
Defined.

(** C9: the repair is not total.  On a row where "Year 3" is missing,
    "Year 2" is present and "Year 1" is missing, line 83 takes the length
    of the missing "Year 1", which raises; the row is not repaired, and
    neither is any frame that holds it. *)
Theorem repair_fails_without_year1 (row : NormalizedRow) (y2 : str) :
  Year_3 row = None -> Year_2 row = Some y2 -> Year_1 row = None ->
  len (Year_1 row) = Raise TypeError
  /\ year3_lambda row = Raise TypeError
  /\ repair_row row = Raise TypeError
  /\ (forall t, In row t -> repair t = Raise TypeError).
Proof.
  intros H3 H2 H1.
  assert (L : len (Year_1 row) = Raise TypeError) by now rewrite H1.
  assert (Y : year3_lambda row = Raise TypeError).
  { unfold year3_lambda. rewrite H3, H2, L. reflexivity. }
  assert (R : repair_row row = Raise TypeError).
  { unfold repair_row. now rewrite Y. }
  repeat split; try assumption.
  intros t Hin. rewrite repair_rowwise.
  destruct (mapM_fails repair_row t row _ Hin R) as [e He].
  rewrite He. f_equal.
  apply mapM_Raise in He as (r & _ & Hr). eapply repair_row_exn; eassumption.
Qed.

Lemma repair_fails_without_year1_witness :
  Year_3 (year_row None (Some (lit "20222023")) None) = None
  /\ repair_row (year_row None (Some (lit "20222023")) None) = Raise TypeError.
Proof.
  split; [reflexivity|].
  apply (repair_fails_without_year1
           (year_row None (Some (lit "20222023")) None)
           (lit "20222023")); reflexivity.
Defined.

Lemma repair_Ok (t t' : list NormalizedRow) :
  repair t = Ok t' -> Forall2 (fun row row' => repair_row row = Ok row') t t'.
Proof. rewrite repair_rowwise. apply mapM_Ok_Forall2. Qed.

Lemma process_table_ten (pdf_filename : str) (s : state) (table : DataFrame) :
  length (columns table) = 10 ->
  process_table pdf_filename s table
  = (t <- repair (map (canonical pdf_filename) (skipn 3 (data table))) ;;
     Ok (say (append_table s t) (st_text (f [lit "Processing... "; pdf_filename])))).
Proof.
  intros H. unfold process_table. cbn [iloc_from columns data]. rewrite H.
  cbn [Nat.eqb].
  now destruct (repair (map (canonical pdf_filename) (skipn 3 (data table)))).
Qed.

(** C5: a table that does not have exactly 10 columns once its first 3
    rows are dropped adds no row, and a warning that names the file is
    shown; a table that has exactly 10 columns adds one frame whose every
    row carries the file name as its 11th column (one row per row left
    after the drop), and it does so whenever every row can be repaired. *)
Theorem normalizer_requires_ten_columns
    (pdf_filename : str) (s : state) (table : DataFrame) :
  let processed_table := iloc_from table 3 in
  (length (columns processed_table) <> 10 ->
     exists s',
       process_table pdf_filename s table = Ok s'
       /\ appended_tables s' = appended_tables s
       /\ screen s'
          = screen s
            ++ [ st_warning (lit "Ignoring table in " ++ pdf_filename
                             ++ lit " due to mismatched number of columns.");
                 st_text (lit "Processing... " ++ pdf_filename) ])
  /\ (length (columns processed_table) = 10 ->
        (forall s', process_table pdf_filename s table = Ok s' ->
           exists t,
             appended_tables s' = appended_tables s ++ [t]
             /\ length t = length (data processed_table)
             /\ Forall (fun row =>
                          Filename row = pdf_filename
                          /\ length (cells_of row) = 11
                          /\ nth_error (cells_of row) 10 = Some (Some pdf_filename))
                       t)
        /\ ((forall r, In r (data processed_table) ->
               repairable (canonical pdf_filename r) = true) ->
            exists s', process_table pdf_filename s table = Ok s')).
Proof.
  cbv zeta. cbn [iloc_from columns data]. split.
  - intros Hne. unfold process_table. cbn [iloc_from columns data].
    apply Nat.eqb_neq in Hne. rewrite Hne. cbn [bind].
    eexists. split; [reflexivity|]. split; [reflexivity|].
    cbn [say screen f concat]. rewrite <- app_assoc, !app_nil_r. reflexivity.
  - intros H10. rewrite (process_table_ten pdf_filename s table H10). split.
    + intros s'.
      destruct (repair (map (canonical pdf_filename) (skipn 3 (data table))))
        as [t|e] eqn:E; cbn [bind]; [|discriminate].
      intros H. injection H as <-. exists t. split; [reflexivity|].
      apply repair_Ok in E. split.
      * apply Forall2_length in E. now rewrite length_map in E.
      * apply Forall_forall. intros row' Hin.
        apply In_nth_error in Hin as [n Hn].
        assert (Hrow : exists row, In row (map (canonical pdf_filename)
                                             (skipn 3 (data table)))
                                   /\ repair_row row = Ok row').
        { clear - E Hn. revert n Hn. induction E as [|a b l l' Hab _ IH];
            intros n Hn.
          - destruct n; discriminate.
          - destruct n as [|n]; simpl in Hn.
            + injection Hn as <-. exists a. split; [now left | exact Hab].
            + destruct (IH n Hn) as (row & Hin & Hrow).
              exists row. split; [now right | exact Hrow]. }
        destruct Hrow as (row & Hin & Hrow).
        apply in_map_iff in Hin as (r & <- & _).
        apply repair_row_Filename in Hrow. cbn [canonical Filename] in Hrow.
        unfold cells_of. cbn [length nth_error]. rewrite Hrow. auto.
    + intros Hall.
      destruct (mapM_total repair_row
                  (map (canonical pdf_filename) (skipn 3 (data table))))
        as [t Ht].
      * intros row Hin. apply in_map_iff in Hin as (r & <- & Hr).
        apply repair_row_total. now apply Hall.
      * rewrite repair_rowwise, Ht. cbn [bind]. eexists. reflexivity.
Qed.

Lemma normalizer_requires_ten_columns_witness :
  length (columns (iloc_from land_table 3)) = 10
  /\ exists s', process_table (lit "notice.pdf") initial_state land_table = Ok s'.
Proof.
  split; [reflexivity|].
  pose proof (normalizer_requires_ten_columns
                (lit "notice.pdf") initial_state land_table) as H.
  cbv zeta in H. destruct H as [_ H]. destruct (H eq_refl) as [_ Hex].
  apply Hex. intros r Hr. cbn [iloc_from data land_table skipn] in Hr.
  repeat (destruct Hr as [<-|Hr]; [reflexivity|]). contradiction.
Defined.

(** ** Field Extractor *)

Lemma stands_at_iff (label s : str) :
  startswith (lower s) (lower label) = true <-> stands_at label s.
Proof.
  rewrite startswith_iff. unfold stands_at. split.
  - intros [t H]. unfold lower in H.
    apply map_eq_app in H as (m & rest & -> & Hm & _). now exists m, rest.
  - intros (m & rest & -> & Hm). exists (lower rest).
    now rewrite lower_app, Hm.
Qed.

Lemma skipn_label (label m rest : str) :
  lower m = lower label -> skipn (length label) (m ++ rest) = rest.
Proof.
  intros H. apply (f_equal (@length ascii)) in H. rewrite !lower_length in H.
  rewrite <- H. rewrite skipn_app, skipn_all, Nat.sub_diag. reflexivity.
Qed.

Lemma until_newline_spec (s : str) : rest_of_line s (until_newline s).
Proof.
  unfold rest_of_line. induction s as [|c s [IHnot IHsplit]]; simpl.
  - split; [tauto | now left].
  - destruct (Ascii.eqb c newline) eqn:E.
    + apply Ascii.eqb_eq in E. subst c. split; [tauto|].
      right. now exists s.
    + apply Ascii.eqb_neq in E. split.
      * intros [H|H]; [congruence | tauto].
      * destruct IHsplit as [H|[tail H]].
        -- left. now f_equal.
        -- right. exists tail. simpl. now f_equal.
Qed.

Lemma search_label_eq (label text : str) :
  search_label label text
  = if startswith (lower text) (lower label)
    then Some (until_newline (skipn (length label) text))
    else match text with
         | [] => None
         | _ :: text' => search_label label text'
         end.
Proof. now destruct text. Qed.

Lemma search_label_spec (label text : str) :
  match search_label label text with
  | None => ~ occurs_in label text
  | Some g =>
      exists pre m rest,
        text = pre ++ m ++ rest
        /\ lower m = lower label
        /\ (forall pre' s, text = pre' ++ s -> length pre' < length pre ->
              ~ stands_at label s)
        /\ rest_of_line rest g
  end.
Proof.
  assert (Here : forall t, startswith (lower t) (lower label) = true ->
            exists pre m rest,
              t = pre ++ m ++ rest
              /\ lower m = lower label
              /\ (forall pre' s, t = pre' ++ s -> length pre' < length pre ->
                    ~ stands_at label s)
              /\ rest_of_line rest (until_newline (skipn (length label) t))).
  { intros t H. apply stands_at_iff in H as (m & rest & -> & Hm).
    exists [], m, rest. split; [reflexivity|]. split; [exact Hm|]. split.
    - intros pre' s _ Hlt. simpl in Hlt. lia.
    - rewrite (skipn_label _ _ _ Hm). apply until_newline_spec. }
  induction text as [|c text IH]; rewrite search_label_eq.
  - destruct (startswith (lower []) (lower label)) eqn:E.
    + now apply Here.
    + intros (pre & s & H & Hs). destruct pre; [|discriminate].
      simpl in H. subst s. apply stands_at_iff in Hs. congruence.
  - destruct (startswith (lower (c :: text)) (lower label)) eqn:E.
    + now apply Here.
    + destruct (search_label label text) as [g|].
      * destruct IH as (pre & m & rest & -> & Hm & Hleft & Hrest).
        exists (c :: pre), m, rest. split; [reflexivity|].
        split; [exact Hm|]. split; [|exact Hrest].
        intros pre' s H Hlt Hs. destruct pre' as [|c' pre'].
        -- simpl in H. subst s. apply stands_at_iff in Hs. congruence.
        -- injection H as <- H. simpl in Hlt.
           apply (Hleft pre' s H); [lia | exact Hs].
      * intros (pre & s & H & Hs). destruct pre as [|c' pre].
        -- simpl in H. subst s. apply stands_at_iff in Hs. congruence.
        -- injection H as <- H. apply IH. now exists pre, s.
Qed.

Lemma lstrip_spec (s : str) :
  exists before,
    s = before ++ lstrip s
    /\ forallb isspace before = true
    /\ (forall c r, lstrip s = c :: r -> isspace c = false).
Proof.
  induction s as [|c s (before & Hs & Hb & Hhead)]; simpl.
  - exists []. repeat split. discriminate.
  - destruct (isspace c) eqn:E.
    + exists (c :: before). simpl. rewrite E, Hb. repeat split.
      * now f_equal.
      * exact Hhead.
    + exists []. repeat split. intros c' r H. now injection H as <- _.
Qed.

Lemma forallb_rev {A : Type} (p : A -> bool) (l : list A) :
  forallb p (rev l) = true <-> forallb p l = true.
Proof.
  rewrite !forallb_forall. split; intros H x Hx; apply H.
  - now apply in_rev in Hx.
  - now apply in_rev.
Qed.

Lemma strip_spec (g : str) : stripped g (strip g).
Proof.
  unfold stripped, strip, rstrip.
  destruct (lstrip_spec g) as (before & Hg & Hbefore & Hhead).
  destruct (lstrip_spec (rev (lstrip g))) as (b2 & Hr & Hb2 & Hlast).
  assert (Hs : lstrip g = rev (lstrip (rev (lstrip g))) ++ rev b2).
  { rewrite <- rev_app_distr, <- Hr. now rewrite rev_involutive. }
  exists before, (rev b2). split; [|split; [|split]].
  - now rewrite <- Hs.
  - exact Hbefore.
  - now apply forallb_rev.
  - split.
    + intros c v' Hv. rewrite Hv in Hs. simpl in Hs. eapply Hhead. exact Hs.
    + intros c v' Hv. apply (f_equal (@rev ascii)) in Hv.
      rewrite rev_involutive, rev_app_distr in Hv. simpl in Hv.
      eapply Hlast. exact Hv.
Qed.

(** The value the extractor stores for a pattern. *)
Lemma extracted_value (label text : str) :
  extracted label text
    match search_label label text with
    | Some group1 => strip group1
    | None => lit ""
    end.
Proof.
  unfold extracted. pose proof (search_label_spec label text) as H.
  destruct (search_label label text) as [g|].
  - right. destruct H as (pre & m & rest & Ht & Hm & Hleft & Hrest).
    exists pre, m, rest, g. repeat split; try assumption.
    + apply Hrest.
    + apply Hrest.
    + apply strip_spec.
  - left. now split.
Qed.

(** The three relations of the specification determine their last
    argument, so [extracted] names one value. *)
Lemma until_newline_line (g : str) :
  ~ In newline g ->
  until_newline g = g /\ forall tail, until_newline (g ++ newline :: tail) = g.
Proof.
  induction g as [|c g IH]; intros Hno.
  - split; [reflexivity|]. intros tail. cbn [app until_newline].
    now rewrite Ascii.eqb_refl.
  - assert (Hc : Ascii.eqb c newline = false).
    { apply Ascii.eqb_neq. intros ->. apply Hno. now left. }
    destruct IH as [IH1 IH2]; [intros H; apply Hno; now right|].
    split; [|intros tail]; cbn [app until_newline]; rewrite Hc; f_equal; auto.
Qed.

Lemma rest_of_line_unique (s g : str) :
  rest_of_line s g -> g = until_newline s.
Proof.
  intros [Hno [->|[tail ->]]].
  - symmetry. now apply until_newline_line.
  - symmetry. now apply until_newline_line.
Qed.

Lemma lstrip_spaces (before s : str) :
  forallb isspace before = true -> lstrip (before ++ s) = lstrip s.
Proof.
  induction before as [|c before IH]; [reflexivity|].
  cbn [forallb app lstrip]. intros H. apply andb_true_iff in H as [Hc Hb].
  rewrite Hc. now apply IH.
Qed.

Lemma lstrip_head (c : ascii) (s : str) :
  isspace c = false -> lstrip (c :: s) = c :: s.
Proof. intros H. cbn [lstrip]. now rewrite H. Qed.

Lemma lstrip_all_spaces (s : str) :
  forallb isspace s = true -> lstrip s = [].
Proof.
  intros H. rewrite <- (app_nil_r s). now rewrite lstrip_spaces.
Qed.

Lemma stripped_unique (g v : str) : stripped g v -> v = strip g.
Proof.
  intros (before & after & -> & Hb & Ha & Hfirst & Hlast).
  unfold strip, rstrip. rewrite (lstrip_spaces before _ Hb).
  destruct v as [|c v'].
  - cbn [app]. now rewrite (lstrip_all_spaces after Ha).
  - cbn [app]. rewrite lstrip_head by (eapply Hfirst; reflexivity).
    change (c :: v' ++ after) with ((c :: v') ++ after).
    rewrite rev_app_distr, lstrip_spaces by now apply forallb_rev.
    destruct (exists_last (l := c :: v') ltac:(discriminate)) as (v0 & z & Hv).
    rewrite Hv, rev_app_distr. cbn [rev app].
    rewrite lstrip_head by (eapply Hlast; exact Hv).
    change (z :: rev v0) with ([z] ++ rev v0).
    now rewrite rev_app_distr, rev_involutive.
Qed.

Lemma leftmost_unique (label text pre1 m1 rest1 pre2 m2 rest2 : str) :
  text = pre1 ++ m1 ++ rest1 -> lower m1 = lower label ->
  text = pre2 ++ m2 ++ rest2 -> lower m2 = lower label ->
  (forall pre' s, text = pre' ++ s -> length pre' < length pre2 ->
     ~ stands_at label s) ->
  length pre2 <= length pre1.
Proof.
  intros H1 Hm1 H2 Hm2 Hleft.
  destruct (Nat.le_gt_cases (length pre2) (length pre1)) as [Hle|Hlt];
    [exact Hle|].
  elim (Hleft pre1 (m1 ++ rest1) H1 Hlt). now exists m1, rest1.
Qed.

Lemma app_same_length {A : Type} (a1 b1 a2 b2 : list A) :
  a1 ++ b1 = a2 ++ b2 -> length a1 = length a2 -> a1 = a2 /\ b1 = b2.
Proof.
  revert a2. induction a1 as [|x a1 IH]; intros [|y a2] H Hlen;
    try discriminate Hlen.
  - now split.
  - injection H as -> H. injection Hlen as Hlen.
    destruct (IH a2 H Hlen) as [-> ->]. now split.
Qed.

Lemma extracted_unique (label text v : str) :
  extracted label text v ->
  v = match search_label label text with
      | Some group1 => strip group1
      | None => lit ""
      end.
Proof.
  intros Hv. pose proof (search_label_spec label text) as Hs.
  destruct Hv as [[Hno ->]|(pre & m & rest & g & Ht & Hm & Hleft & Hrest & Hstrip)].
  - destruct (search_label label text) as [g|]; [|reflexivity].
    destruct Hs as (pre & m & rest & Ht & Hm & _). elim Hno.
    exists pre, (m ++ rest). split; [exact Ht|]. now exists m, rest.
  - destruct (search_label label text) as [g'|].
    + destruct Hs as (pre' & m' & rest' & Ht' & Hm' & Hleft' & Hrest').
      assert (Hlen : length pre = length pre').
      { apply Nat.le_antisymm.
        - exact (leftmost_unique label text pre' m' rest' pre m rest
                   Ht' Hm' Ht Hm Hleft).
        - exact (leftmost_unique label text pre m rest pre' m' rest'
                   Ht Hm Ht' Hm' Hleft'). }
      rewrite Ht in Ht'.
      destruct (app_same_length _ _ _ _ Ht' Hlen) as [_ Hmr].
      assert (Hlm : length m = length m').
      { rewrite <- (lower_length m), <- (lower_length m'). congruence. }
      destruct (app_same_length _ _ _ _ Hmr Hlm) as [_ <-].
      rewrite (rest_of_line_unique rest g Hrest) in Hstrip.
      rewrite (rest_of_line_unique rest g' Hrest').
      now apply stripped_unique.
    + elim Hs. exists pre, (m ++ rest). split; [exact Ht|]. now exists m, rest.
Qed.

Lemma dict_set_fresh (d : dict) (k v : str) :
  ~ In k (keys d) -> dict_set d k v = d ++ [(k, v)].
Proof.
  induction d as [|[k' v'] d IH]; simpl; intros H; [reflexivity|].
  destruct (str_eqb k' k) eqn:E.
  - apply str_eqb_eq in E. tauto.
  - f_equal. apply IH. tauto.
Qed.

Lemma dict_get_In (d : dict) (k v : str) :
  NoDup (keys d) -> In (k, v) d -> dict_get d k = Some v.
Proof.
  induction d as [|[k' v'] d IH]; simpl; intros Hnd Hin; [contradiction|].
  inversion Hnd as [|? ? Hk' Hnd']; subst.
  destruct Hin as [H|H].
  - injection H as -> ->.
    now rewrite (proj2 (str_eqb_eq k k) eq_refl).
  - destruct (str_eqb k' k) eqn:E.
    + apply str_eqb_eq in E. subst k'. elim Hk'.
      apply in_map_iff. now exists (k, v).
    + now apply IH.
Qed.

Lemma fold_pages (pages : list str) (text : str) :
  fold_left (fun text page_text => text ++ page_text) pages text
  = text ++ document_text pages.
Proof.
  unfold document_text. revert text.
  induction pages as [|p pages IH]; intros text; simpl.
  - now rewrite app_nil_r.
  - now rewrite IH, app_assoc.
Qed.

(** The loop of lines 35 to 37 over patterns with distinct names stores
    one value per pattern, in the order of the patterns. *)
Lemma extract_loop (value : str -> str) (ps d : dict) :
  NoDup (keys d ++ keys ps) ->
  fold_left
    (fun pattern_values p =>
       let '(pattern_name, pattern_regex) := p in
       dict_set pattern_values pattern_name (value pattern_regex))
    ps d
  = d ++ map (fun p => (fst p, value (snd p))) ps.
Proof.
  revert d. induction ps as [|[k r] ps IH]; intros d Hnd; simpl.
  - now rewrite app_nil_r.
  - simpl in Hnd. rewrite dict_set_fresh.
    + rewrite IH.
      * now rewrite <- app_assoc.
      * unfold keys. rewrite map_app. simpl. now rewrite <- app_assoc.
    + apply NoDup_remove_2 in Hnd. intros H. apply Hnd.
      apply in_or_app. now left.
Qed.

Lemma patterns_distinct : NoDup (keys patterns).
Proof.
  unfold keys, patterns. cbn [map fst].
  repeat (constructor; [cbn [In]; intuition discriminate|]). constructor.
Qed.

(** Every pattern of [main] is its label followed by the rest-of-line
    group. *)
Lemma patterns_shape :
  map (fun p => (fst p, label_of (snd p))) patterns = field_labels
  /\ map (fun p => snd p) patterns
     = map (fun nl => snd nl ++ ["("; "."; "*"; ")"]%char) field_labels.
Proof. split; reflexivity. Qed.

Lemma read_and_extract_patterns_eq (pages : list str) :
  read_and_extract_patterns pages patterns
  = map (fun nl =>
           (fst nl,
            match search_label (snd nl) (document_text pages) with
            | Some group1 => strip group1
            | None => lit ""
            end))
        field_labels.
Proof.
  unfold read_and_extract_patterns. rewrite fold_pages. cbn [app].
  rewrite (extract_loop
             (fun pattern_regex =>
                match re_search pattern_regex (document_text pages) with
                | Some group1 => strip group1
                | None => lit ""
                end)).
  - cbn [app]. rewrite <- (proj1 patterns_shape). rewrite map_map.
    reflexivity.
  - apply patterns_distinct.
Qed.

(** C7: whatever the recognised text, the FieldMap has the eight field
    names as keys, in the order of the pattern definitions; the value of a
    field is the stripped rest of the line after the leftmost occurrence
    of its label (in any case), or the empty string when the label does
    not occur, so a missing match raises nothing; the FieldMap depends on
    the text alone, so the same text gives the same FieldMap again. *)
Theorem field_extractor_fills_all_fields (pages : list str) :
  let text := document_text pages in
  let field_map := read_and_extract_patterns pages patterns in
  keys field_map = field_names
  /\ (forall name label, In (name, label) field_labels ->
        forall v, dict_get field_map name = Some v <-> extracted label text v)
  /\ (forall name label, In (name, label) field_labels ->
        ~ occurs_in label text -> dict_get field_map name = Some (lit ""))
  /\ (forall pages', document_text pages' = text ->
        read_and_extract_patterns pages' patterns = field_map).
Proof.
  cbv zeta. rewrite read_and_extract_patterns_eq.
  split; [reflexivity|].
  assert (Hget : forall name label, In (name, label) field_labels ->
            dict_get
              (map (fun nl =>
                      (fst nl,
                       match search_label (snd nl) (document_text pages) with
                       | Some group1 => strip group1
                       | None => lit ""
                       end)) field_labels) name
            = Some match search_label label (document_text pages) with
                   | Some group1 => strip group1
                   | None => lit ""
                   end).
  { intros name label Hin. apply dict_get_In.
    - unfold keys. rewrite map_map. cbn [fst].
      change (map (fun x => fst x) field_labels) with (keys patterns).
      apply patterns_distinct.
    - apply in_map_iff. exists (name, label).
      split; [reflexivity | exact Hin]. }
  split; [|split].
  - intros name label Hin v. rewrite (Hget name label Hin). split.
    + intros H. injection H as <-. apply extracted_value.
    + intros H. now rewrite (extracted_unique label _ v H).
  - intros name label Hin Hno. rewrite (Hget name label Hin).
    pose proof (search_label_spec label (document_text pages)) as H.
    destruct (search_label label (document_text pages)) as [g|]; [|reflexivity].
    destruct H as (pre & m & rest & Ht & Hm & _). elim Hno.
    exists pre, (m ++ rest). split; [exact Ht|]. now exists m, rest.
  - intros pages' Htext. rewrite read_and_extract_patterns_eq. now rewrite Htext.
Qed.

(** The extractor run on the two pages of the example notice. *)
Example fields_of_the_notice :
  read_and_extract_patterns (page_texts notice) patterns
  = [ (lit "Name", lit "A Person");
      (lit "Client ID", lit "123");
      (lit "Correspondence ID", lit "");
      (lit "Issue date", lit "");
      (lit "Aggregated taxable land value", lit "");
      (lit "Less threshold", lit "");
      (lit "Subtotal", lit "");
      (lit "Total tax payable", lit "$1,500.00") ].
Proof. vm_compute. reflexivity. Qed.

(** ** Document Aggregator: the PID column *)


Lemma combine_shift_up (rows : list NormalizedRow) :
  combine rows (shift_up (map Land_Item_and_Property_ID rows)) = with_next rows.
Proof.
  destruct rows as [|row rows]; [reflexivity|].
  revert row. induction rows as [|next rows IH]; intros row; [reflexivity|].
  specialize (IH next). cbn [map shift_up] in IH.
  cbn [map shift_up app combine with_next]. f_equal.
  cbn [with_next] in IH. exact IH.
Qed.

Lemma add_PID_eq (rows : list NormalizedRow) :
  add_PID rows
  = map (fun rn => {| item := fst rn; PID := snd rn |}) (with_next rows).
Proof. unfold add_PID. now rewrite combine_shift_up. Qed.

Lemma map_fst_with_next (rows : list NormalizedRow) :
  map fst (with_next rows) = rows.
Proof. induction rows as [|row rows IH]; simpl; [reflexivity | now f_equal]. Qed.


Lemma combine_map_self {A B : Type} (k : A -> B) (l : list A) :
  combine (map k l) l = map (fun a => (k a, a)) l.
Proof. induction l as [|a l IH]; simpl; [reflexivity | now f_equal]. Qed.

Lemma boolean_mask_present (col : list cell) :
  Forall (fun c => notna c = true) col ->
  boolean_mask (str_contains (lit "PID") col) = Ok (map has_PID col).
Proof.
  intros H. unfold boolean_mask, str_contains.
  induction H as [|c col Hc _ IH]; [reflexivity|].
  cbn [map]. rewrite mapM_cons, IH.
  destruct c as [s|]; [reflexivity | discriminate].
Qed.

Lemma boolean_mask_missing (col : list cell) :
  In None col -> boolean_mask (str_contains (lit "PID") col) = Raise ValueError.
Proof.
  intros H. unfold boolean_mask, str_contains.
  induction col as [|c col IH]; [contradiction|].
  cbn [map]. rewrite mapM_cons. destruct c as [s|]; [|reflexivity].
  destruct H as [H|H]; [discriminate|].
  cbn [option_map bind]. now rewrite (IH H).
Qed.

(** Lines 160 and 161 when every "Land Item and Property ID" is a
    string. *)
Lemma own_PID_present (rows : list NormalizedRow) :
  Forall (fun row => notna (Land_Item_and_Property_ID row) = true) rows ->
  own_PID (add_PID rows) = Ok (map choose_PID (with_next rows)).
Proof.
  intros H. unfold own_PID.
  rewrite boolean_mask_present.
  - cbn [bind]. f_equal.
    rewrite (map_map (fun r => Land_Item_and_Property_ID (item r)) has_PID).
    rewrite combine_map_self, map_map. rewrite add_PID_eq, map_map.
    apply map_ext. intros [row next]. unfold choose_PID. cbn [fst snd item].
    now destruct (has_PID (Land_Item_and_Property_ID row)).
  - rewrite add_PID_eq, !map_map. cbn [item fst].
    rewrite <- (map_fst_with_next rows) in H. rewrite Forall_map in H.
    rewrite Forall_map. exact H.
Qed.

(** A missing "Land Item and Property ID" anywhere makes line 161 raise. *)
Lemma own_PID_missing (rows : list NormalizedRow) (row : NormalizedRow) :
  In row rows -> Land_Item_and_Property_ID row = None ->
  own_PID (add_PID rows) = Raise ValueError.
Proof.
  intros Hin Hna. unfold own_PID. rewrite boolean_mask_missing; [reflexivity|].
  rewrite add_PID_eq, !map_map. cbn [item fst].
  rewrite <- (map_fst_with_next rows) in Hin.
  apply in_map_iff in Hin as (rn & <- & Hrn).
  apply in_map_iff. exists rn. now split.
Qed.




(** The example of the specification, run: row A takes the value of row B,
    row B keeps its own, and only row A is left after the drop. *)
Example pid_of_lot_5 :
  own_PID (add_PID [item_row (lit "1") (lit "LOT 5");
                    annotation_row (lit "PID 12345")])
  = Ok [ {| item := item_row (lit "1") (lit "LOT 5");
            PID := Some (lit "PID 12345") |};
         {| item := annotation_row (lit "PID 12345");
            PID := Some (lit "PID 12345") |} ]
  /\ derive [item_row (lit "1") (lit "LOT 5"); annotation_row (lit "PID 12345")]
     = Ok [ {| item := item_row (lit "1") (lit "LOT 5");
               PID := Some (lit "PID 12345") |} ].
Proof. split; reflexivity. Qed.


Lemma in_merge_left (left : list dict) (right : list ResultRow)
    (d : dict) (r : ResultRow) :
  In d left -> In r right ->
  dict_get d (lit "Filename") = Some (Filename (item r)) ->
  In {| fields := d; table_columns := Some r |} (merge_left left right).
Proof.
  intros Hd Hr Hk. unfold merge_left. apply in_flat_map. exists d.
  split; [exact Hd|]. rewrite Hk.
  assert (Hin : In r (filter (fun r0 => str_eqb (Filename (item r))
                                          (Filename (item r0))) right)).
  { apply filter_In. split; [exact Hr|]. now apply str_eqb_eq. }
  destruct (filter (fun r0 => str_eqb (Filename (item r)) (Filename (item r0))) right)
    as [|r0 l]; [contradiction|].
  apply in_map_iff. now exists r.
Qed.

(** ** Document Aggregator: the merge *)

Lemma merge_left_cons (d : dict) (left : list dict) (right : list ResultRow) :
  merge_left (d :: left) right
  = match rows_of d right with
    | [] => [ {| fields := d; table_columns := None |} ]
    | matching => map (fun r => {| fields := d; table_columns := Some r |}) matching
    end ++ merge_left left right.
Proof. reflexivity. Qed.

Lemma list_sum_cons (a : nat) (l : list nat) :
  list_sum (a :: l) = a + list_sum l.
Proof. reflexivity. Qed.

Lemma merge_left_length (left : list dict) (right : list ResultRow) :
  length (merge_left left right)
  = list_sum (map (fun d => Nat.max 1 (length (rows_of d right))) left).
Proof.
  induction left as [|d left IH]; [reflexivity|].
  rewrite merge_left_cons, length_app, IH. cbn [map]. rewrite list_sum_cons.
  destruct (rows_of d right) as [|r l]; cbn [map length];
    rewrite ?length_map; lia.
Qed.

Lemma merge_left_fields_only (left : list dict) (right : list ResultRow) (d : dict) :
  In d left -> rows_of d right = [] ->
  In {| fields := d; table_columns := None |} (merge_left left right).
Proof.
  intros Hd Hnone. induction left as [|d' left IH]; [contradiction|].
  rewrite merge_left_cons. apply in_or_app. destruct Hd as [->|Hd].
  - left. rewrite Hnone. now left.
  - right. now apply IH.
Qed.

Lemma merge_left_split (left : list dict) (right : list ResultRow) :
  list_sum (map (fun d => Nat.max 1 (length (rows_of d right))) left)
  = list_sum (map (fun d => length (rows_of d right)) left)
    + length (fields_only left right).
Proof.
  induction left as [|d left IH]; [reflexivity|].
  cbn [map fields_only filter]. fold (fields_only left right).
  rewrite !list_sum_cons, IH.
  destruct (rows_of d right) as [|r l]; cbn [length]; lia.
Qed.

(** With one FieldMap per file name, a row is counted under one FieldMap
    only. *)
Lemma rows_of_one (left : list dict) (r : ResultRow) :
  NoDup (map filename_of left) ->
  (exists d, In d left /\ filename_of d = Some (Filename (item r))) ->
  list_sum (map (fun d => if same_file d r then 1 else 0) left) = 1.
Proof.
  induction left as [|d left IH]; intros Hnd [d0 [Hin Hk]]; [contradiction|].
  cbn [map] in Hnd. inversion Hnd as [|? ? Hnotin Hnd']; subst.
  cbn [map]. rewrite list_sum_cons. unfold same_file at 1.
  destruct Hin as [->|Hin].
  - rewrite Hk, (proj2 (str_eqb_eq _ _) eq_refl).
    assert (Hz : list_sum (map (fun d => if same_file d r then 1 else 0) left) = 0).
    { clear IH Hnd Hnd'. induction left as [|d left IH]; [reflexivity|].
      cbn [map]. rewrite list_sum_cons, IH.
      - unfold same_file. destruct (filename_of d) as [k|] eqn:E; [|reflexivity].
        destruct (str_eqb k (Filename (item r))) eqn:Ek; [|reflexivity].
        apply str_eqb_eq in Ek. subst k. elim Hnotin. left. congruence.
      - intros H. apply Hnotin. now right. }
    now rewrite Hz.
  - rewrite IH; [|exact Hnd'|now exists d0].
    destruct (filename_of d) as [k|] eqn:E; [|reflexivity].
    destruct (str_eqb k (Filename (item r))) eqn:Ek; [|reflexivity].
    apply str_eqb_eq in Ek. subst k. elim Hnotin.
    rewrite <- Hk. apply in_map. exact Hin.
Qed.

Lemma rows_of_sum (left : list dict) (right : list ResultRow) :
  NoDup (map filename_of left) ->
  (forall r, In r right ->
     exists d, In d left /\ filename_of d = Some (Filename (item r))) ->
  list_sum (map (fun d => length (rows_of d right)) left) = length right.
Proof.
  intros Hnd. induction right as [|r right IH]; intros Hall.
  - clear Hnd Hall. induction left as [|d left IHl]; [reflexivity|].
    cbn [map]. rewrite list_sum_cons, IHl. reflexivity.
  - assert (Hstep : forall l,
              list_sum (map (fun d => length (rows_of d (r :: right))) l)
              = list_sum (map (fun d => if same_file d r then 1 else 0) l)
                + list_sum (map (fun d => length (rows_of d right)) l)).
    { induction l as [|d l IHl]; [reflexivity|].
      cbn [map]. rewrite !list_sum_cons, IHl. unfold rows_of at 1. cbn [filter].
      fold (rows_of d right). destruct (same_file d r); cbn [length]; lia. }
    rewrite Hstep, IH, rows_of_one.
    + reflexivity.
    + exact Hnd.
    + apply Hall. now left.
    + intros r' Hr'. apply Hall. now right.
Qed.

(** ** The batch loop *)

Lemma dict_get_set (d : dict) (k v : str) : dict_get (dict_set d k v) k = Some v.
Proof.
  induction d as [|[k' v'] d IH]; simpl.
  - now rewrite (proj2 (str_eqb_eq k k) eq_refl).
  - destruct (str_eqb k' k) eqn:E; simpl; now rewrite E.
Qed.

Lemma repair_Filename (t t' : list NormalizedRow) (pdf_filename : str) :
  repair t = Ok t' ->
  Forall (fun row => Filename row = pdf_filename) t ->
  Forall (fun row => Filename row = pdf_filename) t'.
Proof.
  intros H. apply repair_Ok in H.
  induction H as [|row row' t t' Hrow _ IH]; intros Hall; [constructor|].
  inversion Hall as [|? ? Hfn Hall']; subst. constructor.
  - now rewrite (repair_row_Filename row row' Hrow).
  - now apply IH.
Qed.

(** One table either adds nothing or adds one frame of rows of the
    document. *)
Lemma process_table_adds (pdf_filename : str) (s s' : state) (table : DataFrame) :
  process_table pdf_filename s table = Ok s' ->
  pattern_values_list s' = pattern_values_list s
  /\ (appended_tables s' = appended_tables s
      \/ exists t,
           appended_tables s' = appended_tables s ++ [t]
           /\ Forall (fun row => Filename row = pdf_filename) t).
Proof.
  unfold process_table. cbn [iloc_from columns data].
  destruct (length (columns table) =? 10).
  - destruct (repair (map (canonical pdf_filename) (skipn 3 (data table))))
      as [t|e] eqn:E; cbn [bind]; [|discriminate].
    intros H. injection H as <-. split; [reflexivity|]. right. exists t.
    split; [reflexivity|]. apply (repair_Filename _ _ _ E).
    apply Forall_map. apply Forall_forall. reflexivity.
  - cbn [bind]. intros H. injection H as <-. split; [reflexivity|]. now left.
Qed.

Lemma process_and_append_tables_adds
    (filtered_tables : list DataFrame) (pdf_filename : str) (s s' : state) :
  process_and_append_tables filtered_tables pdf_filename s = Ok s' ->
  pattern_values_list s' = pattern_values_list s
  /\ exists added,
       appended_tables s' = appended_tables s ++ added
       /\ Forall (Forall (fun row => Filename row = pdf_filename)) added.
Proof.
  unfold process_and_append_tables. revert s.
  induction filtered_tables as [|table tables IH]; intros s; cbn [foldM].
  - intros H. injection H as <-. split; [reflexivity|]. exists [].
    split; [now rewrite app_nil_r | constructor].
  - destruct (process_table pdf_filename s table) as [s1|e] eqn:E;
      cbn [bind]; [|discriminate].
    intros H. apply IH in H as (Hpv & added & Happ & Hall).
    apply process_table_adds in E as (Hpv1 & Hadd).
    split; [congruence|]. destruct Hadd as [Heq|(t & Heq & Ht)].
    + exists added. now rewrite Happ, Heq.
    + exists (t :: added). rewrite Happ, Heq, <- app_assoc.
      split; [reflexivity | now constructor].
Qed.

Lemma pattern_values_not_empty (pages : list str) :
  read_and_extract_patterns pages patterns <> [].
Proof. rewrite read_and_extract_patterns_eq. discriminate. Qed.

(** What one document does to the two lists. *)
Lemma process_pdf_adds (s s' : state) (pdf_file : UploadedFile) :
  process_pdf s pdf_file = Ok s' ->
  if is_pdf pdf_file
  then
    (exists d,
       pattern_values_list s' = pattern_values_list s ++ [d]
       /\ filename_of d = Some (name pdf_file))
    /\ exists added,
         appended_tables s' = appended_tables s ++ added
         /\ Forall (Forall (fun row => Filename row = name pdf_file)) added
  else
    pattern_values_list s' = pattern_values_list s
    /\ appended_tables s' = appended_tables s.
Proof.
  unfold process_pdf. fold (is_pdf pdf_file).
  destruct (is_pdf pdf_file); cbn [negb].
  - pose proof (pattern_values_not_empty (page_texts pdf_file)) as Hpv.
    destruct (read_and_extract_patterns (page_texts pdf_file) patterns)
      as [|p pv] eqn:Epv; [congruence|]. clear Hpv.
    set (d := dict_set (p :: pv) (lit "Filename") (name pdf_file)).
    set (s1 := append_pattern_values s d).
    assert (Hext : exists s2,
               extract_tables_from_pdf pdf_file s1 = (fst (extract_tables_from_pdf pdf_file s1), s2)
               /\ pattern_values_list s2 = pattern_values_list s1
               /\ appended_tables s2 = appended_tables s1).
    { unfold extract_tables_from_pdf. destruct (read_pdf pdf_file);
        eexists; cbn [fst]; split; try reflexivity; split; reflexivity. }
    destruct Hext as (s2 & Hext & Hpv2 & Hat2). rewrite Hext.
    assert (Hd : exists d0,
               pattern_values_list s2 = pattern_values_list s ++ [d0]
               /\ filename_of d0 = Some (name pdf_file)).
    { exists d. split; [now rewrite Hpv2|]. apply dict_get_set. }
    assert (Hsame : forall s3, s3 = s2 ->
              (exists d0,
                 pattern_values_list s3 = pattern_values_list s ++ [d0]
                 /\ filename_of d0 = Some (name pdf_file))
              /\ exists added,
                   appended_tables s3 = appended_tables s ++ added
                   /\ Forall (Forall (fun row => Filename row = name pdf_file)) added).
    { intros s3 ->. split; [exact Hd|]. exists [].
      rewrite app_nil_r. split; [now rewrite Hat2 | constructor]. }
    destruct (fst (extract_tables_from_pdf pdf_file s1)) as [[|table tables]|].
    + intros H. injection H as <-. now apply Hsame.
    + destruct (filter_tables_by_first_cell_value (table :: tables) (lit "Land"))
        as [|ft fts].
      * intros H. injection H as <-. split; [exact Hd|]. exists [].
        rewrite app_nil_r. cbn [say appended_tables].
        split; [now rewrite Hat2 | constructor].
      * intros H. apply process_and_append_tables_adds in H as (Hpv3 & added & Happ & Hall).
        split.
        -- destruct Hd as (d0 & Hd0 & Hk). exists d0. split; [congruence | exact Hk].
        -- exists added. split; [now rewrite Happ, Hat2 | exact Hall].
    + intros H. injection H as <-. now apply Hsame.
  - intros H. injection H as <-. now split.
Qed.

Lemma collected_step (names : list str) (s s' : state) (pdf_file : UploadedFile) :
  collected names s -> process_pdf s pdf_file = Ok s' ->
  collected (names ++ (if is_pdf pdf_file then [name pdf_file] else [])) s'.
Proof.
  intros [Hfm Hrows] H. apply process_pdf_adds in H. unfold collected.
  destruct (is_pdf pdf_file).
  - destruct H as [(d & Hpv & Hk) (added & Happ & Hall)].
    rewrite Hpv, Happ, !map_app. cbn [map]. rewrite Hfm, Hk. split; [reflexivity|].
    apply Forall_app. split.
    + eapply Forall_impl; [|exact Hrows]. intros t Ht.
      eapply Forall_impl; [|exact Ht]. intros row Hrow.
      apply in_or_app. now left.
    + eapply Forall_impl; [|exact Hall]. intros t Ht.
      eapply Forall_impl; [|exact Ht]. intros row Hrow.
      apply in_or_app. right. left. now symmetry.
  - destruct H as [Hpv Happ]. rewrite Hpv, Happ, app_nil_r. now split.
Qed.

Lemma collected_batch (pdf_files : list UploadedFile) (names : list str) (s s' : state) :
  collected names s -> foldM process_pdf pdf_files s = Ok s' ->
  collected (names ++ map name (filter is_pdf pdf_files)) s'.
Proof.
  revert names s. induction pdf_files as [|pdf_file pdf_files IH];
    intros names s Hc; cbn [foldM filter map].
  - intros H. injection H as <-. now rewrite app_nil_r.
  - destruct (process_pdf s pdf_file) as [s1|e] eqn:E; cbn [bind]; [|discriminate].
    intros H. pose proof (collected_step names s s1 pdf_file Hc E) as Hc1.
    apply (IH _ _ Hc1) in H. destruct (is_pdf pdf_file).
    + cbn [map]. now rewrite <- app_assoc in H.
    + now rewrite app_nil_r in H.
Qed.

(** The rows line 164 leaves are rows of the concatenated frame. *)
Lemma derive_rows (rows : list NormalizedRow) (out : list ResultRow) :
  derive rows = Ok out -> forall r, In r out -> In (item r) rows.
Proof.
  intros H r Hr.
  assert (Hall : Forall (fun row => notna (Land_Item_and_Property_ID row) = true) rows).
  { apply Forall_forall. intros row Hrow.
    destruct (Land_Item_and_Property_ID row) as [lot|] eqn:E; [reflexivity|].
    unfold derive in H. now rewrite (own_PID_missing rows row Hrow E) in H. }
  unfold derive in H. rewrite (own_PID_present rows Hall) in H.
  cbn [bind] in H. injection H as <-.
  apply filter_In in Hr as [Hr _]. apply in_map_iff in Hr as (rn & <- & Hrn).
  cbn [choose_PID item].
  assert (Hfst : In (fst rn) (map fst (with_next rows))) by now apply in_map.
  now rewrite map_fst_with_next in Hfst.
Qed.

(** ** The end-to-end example *)

(** C1, as the specification states it, fails on its own example: the
    first document leaves 3 rows after the drop, the second has no table
    and an all-empty FieldMap, and the final result has 4 rows; the fourth
    carries the second document's file name and fields and no table
    value. *)
Lemma fields_only_document_adds_a_row :
  exists s' rows out joined d,
    foldM process_pdf [notice; blank_notice] initial_state = Ok s'
    /\ derive (concat (appended_tables s')) = Ok rows
    /\ length rows = 3
    /\ main [notice; blank_notice] = Ok out
    /\ written out = Some (Merged joined)
    /\ length joined = 4
    /\ map table_columns joined = map Some rows ++ [None]
    /\ nth_error joined 3 = Some {| fields := d; table_columns := None |}
    /\ filename_of d = Some (name blank_notice)
    /\ Forall (fun kv => snd kv = lit "" \/ fst kv = lit "Filename") d.
Proof.
  eexists. eexists. eexists. eexists. eexists.
  split; [vm_compute; reflexivity|].
  split; [vm_compute; reflexivity|].
  split; [reflexivity|].
  split; [vm_compute; reflexivity|].
  split; [vm_compute; reflexivity|].
  split; [reflexivity|].
  split; [reflexivity|].
  split; [reflexivity|].
  split; [reflexivity|].
  repeat (constructor; [first [left; reflexivity | right; reflexivity]|]).
  constructor.
Qed.

Lemma NoDup_map_Some {A : Type} (l : list A) :
  NoDup l -> NoDup (map Some l).
Proof.
  induction 1 as [|a l Hnotin _ IH]; cbn [map]; constructor; [|exact IH].
  intros H. apply in_map_iff in H as (b & Hb & Hin). injection Hb as ->.
  contradiction.
Qed.

Lemma pattern_values_grow (pdf_files : list UploadedFile) (s s' : state) :
  foldM process_pdf pdf_files s = Ok s' ->
  exists l, pattern_values_list s' = pattern_values_list s ++ l.
Proof.
  revert s. induction pdf_files as [|pdf_file pdf_files IH]; intros s; cbn [foldM].
  - intros H. injection H as <-. exists []. now rewrite app_nil_r.
  - destruct (process_pdf s pdf_file) as [s1|e] eqn:E; cbn [bind]; [|discriminate].
    intros H. apply IH in H as [l Hl]. apply process_pdf_adds in E.
    destruct (is_pdf pdf_file).
    + destruct E as [(d & Hd & _) _]. exists (d :: l).
      rewrite Hl, Hd, <- app_assoc. reflexivity.
    + destruct E as [Hd _]. exists l. now rewrite Hl, Hd.
Qed.

(** A frame is appended only for a document whose FieldMap is stored. *)
Lemma tables_need_field_map (pdf_files : list UploadedFile) (s s' : state) :
  appended_tables s = [] ->
  foldM process_pdf pdf_files s = Ok s' ->
  pattern_values_list s' = [] -> appended_tables s' = [].
Proof.
  revert s. induction pdf_files as [|pdf_file pdf_files IH]; intros s Ha; cbn [foldM].
  - intros H _. now injection H as <-.
  - destruct (process_pdf s pdf_file) as [s1|e] eqn:E; cbn [bind]; [|discriminate].
    intros H Hp. pose proof (process_pdf_adds s s1 pdf_file E) as Hadd.
    destruct (is_pdf pdf_file).
    + destruct Hadd as [(d & Hd & _) _].
      apply pattern_values_grow in H as [l Hl].
      rewrite Hl, Hd, <- app_assoc in Hp.
      now destruct (pattern_values_list s).
    + destruct Hadd as [_ Ha1]. apply (IH s1); [congruence | exact H | exact Hp].
Qed.

Lemma finish_merged (s : state) (rows : list ResultRow) :
  appended_tables s <> [] -> pattern_values_list s <> [] ->
  derive (concat (appended_tables s)) = Ok rows ->
  finish s
  = Ok (screen s ++ [ st_header (lit "Final Result:");
                      st_write (Merged (merge_left (pattern_values_list s) rows)) ]).
Proof.
  intros Ht Hp Hd. unfold finish.
  destruct (appended_tables s) as [|t ts] eqn:Et; [congruence|].
  rewrite Hd. cbn [bind].
  destruct (pattern_values_list s) as [|d ds]; [congruence | reflexivity].
Qed.

(** Every row the loop has collected belongs to a document whose
    FieldMap the loop has stored. *)
Lemma row_has_field_map
    (pdf_files : list UploadedFile) (s' : state) (row : NormalizedRow) :
  foldM process_pdf pdf_files initial_state = Ok s' ->
  In row (concat (appended_tables s')) ->
  exists d, In d (pattern_values_list s')
            /\ filename_of d = Some (Filename row).
Proof.
  intros Hloop Hrow.
  assert (Hc : collected (map name (filter is_pdf pdf_files)) s').
  { apply (collected_batch pdf_files [] initial_state s'); [|exact Hloop].
    split; [reflexivity | constructor]. }
  destruct Hc as [Hnames Hrows].
  apply in_concat in Hrow as (t & Ht & Hrow).
  rewrite Forall_forall in Hrows. specialize (Hrows t Ht).
  rewrite Forall_forall in Hrows. specialize (Hrows _ Hrow).
  assert (Hin : In (Some (Filename row)) (map filename_of (pattern_values_list s'))).
  { rewrite Hnames. now apply in_map. }
  apply in_map_iff in Hin as (d & Hk & Hd). now exists d.
Qed.

(** What [main] shows at the end of a batch that yields a table. *)
Lemma main_merged
    (pdf_files : list UploadedFile) (s' : state) (rows : list ResultRow) :
  foldM process_pdf pdf_files initial_state = Ok s' ->
  appended_tables s' <> [] ->
  derive (concat (appended_tables s')) = Ok rows ->
  main pdf_files
  = Ok (screen s' ++ [ st_header (lit "Final Result:");
                       st_write (Merged (merge_left (pattern_values_list s') rows)) ]).
Proof.
  intros Hloop Htables Hderive. unfold main.
  destruct pdf_files as [|pdf_file files].
  - cbn [foldM] in Hloop. injection Hloop as <-. now elim Htables.
  - rewrite Hloop. cbn [bind]. apply finish_merged; [exact Htables| |exact Hderive].
    intros E. apply Htables.
    now apply (tables_need_field_map (pdf_file :: files) initial_state s').
Qed.

(** C1, amended: when the PDF-named files of a batch have distinct names
    and the batch yields rows, the final result holds every row left after
    the drop once, and one more row, with no table value, for every
    document that produced a FieldMap but no such row; the join removes no
    row and adds exactly these.  Without the assumption on the names, the
    row count is, summed over the FieldMaps, the number of rows of that
    file name, or 1 where there is none. *)
Theorem final_row_count
    (pdf_files : list UploadedFile) (s' : state) (rows : list ResultRow) :
  foldM process_pdf pdf_files initial_state = Ok s' ->
  appended_tables s' <> [] ->
  derive (concat (appended_tables s')) = Ok rows ->
  exists joined,
    main pdf_files
    = Ok (screen s' ++ [ st_header (lit "Final Result:"); st_write (Merged joined) ])
    /\ length joined
       = list_sum (map (fun d => Nat.max 1 (length (rows_of d rows)))
                       (pattern_values_list s'))
    /\ (forall d, In d (pattern_values_list s') -> rows_of d rows = [] ->
          In {| fields := d; table_columns := None |} joined)
    /\ (forall r, In r rows ->
          exists d, In d (pattern_values_list s')
                    /\ filename_of d = Some (Filename (item r))
                    /\ In {| fields := d; table_columns := Some r |} joined)
    /\ (NoDup (map name (filter is_pdf pdf_files)) ->
          length joined
          = length rows + length (fields_only (pattern_values_list s') rows)).
Proof.
  intros Hloop Htables Hderive.
  exists (merge_left (pattern_values_list s') rows).
  split; [|split; [|split; [|split]]].
  - now apply main_merged.
  - apply merge_left_length.
  - intros d Hd Hnone. now apply merge_left_fields_only.
  - intros r Hr.
    destruct (row_has_field_map pdf_files s' (item r) Hloop) as (d & Hd & Hk).
    { exact (derive_rows _ _ Hderive r Hr). }
    exists d. split; [exact Hd|]. split; [exact Hk|]. now apply in_merge_left.
  - intros Hnd. rewrite merge_left_length, merge_left_split. f_equal.
    apply rows_of_sum.
    + destruct (collected_batch pdf_files [] initial_state s') as [Hnames _];
        [split; [reflexivity | constructor] | exact Hloop |].
      rewrite Hnames. now apply NoDup_map_Some.
    + intros r Hr. apply (row_has_field_map pdf_files s' (item r) Hloop).
      exact (derive_rows _ _ Hderive r Hr).
Qed.

Lemma final_row_count_witness :
  foldM process_pdf [notice; blank_notice] initial_state = Ok example_state
  /\ exists joined,
      main [notice; blank_notice]
      = Ok (screen example_state
            ++ [ st_header (lit "Final Result:"); st_write (Merged joined) ])
      /\ length joined
         = length example_rows
           + length (fields_only (pattern_values_list example_state) example_rows).
Proof.
  assert (H1 : foldM process_pdf [notice; blank_notice] initial_state
               = Ok example_state) by (vm_compute; reflexivity).
  assert (H2 : appended_tables example_state <> []) by (vm_compute; discriminate).
  assert (H3 : derive (concat (appended_tables example_state)) = Ok example_rows)
    by (vm_compute; reflexivity).
  split; [exact H1|].
  destruct (final_row_count [notice; blank_notice] example_state example_rows
              H1 H2 H3) as (joined & Hmain & _ & _ & _ & Hcount).
  exists joined. split; [exact Hmain|]. apply Hcount.
  change (NoDup [lit "notice.pdf"; lit "blank.pdf"]).
  constructor; [intros [H|[]]; discriminate H|].
  constructor; [intros []|]. constructor.
Defined.

(** ** Failures of one document *)

Lemma f_four (a b c d : str) : f [a; b; c; d] = a ++ b ++ c ++ d.
Proof. unfold f. cbn [concat]. now rewrite app_nil_r. Qed.

Lemma f_two (a b : str) : f [a; b] = a ++ b.
Proof. unfold f. cbn [concat]. now rewrite app_nil_r. Qed.

Lemma f_three (a b c : str) : f [a; b; c] = a ++ b ++ c.
Proof. unfold f. cbn [concat]. now rewrite app_nil_r. Qed.

(** C8: when the table-detection service raises on a PDF-named document,
    the adapter returns no tables and shows the error with the file name;
    the document adds no table and the loop goes on with the rest of the
    batch.  A file whose name does not end in ".pdf" is skipped with a
    warning that names it, and the loop goes on likewise. *)
Theorem bad_document_does_not_stop_batch
    (s : state) (pdf_file : UploadedFile) (rest : list UploadedFile) :
  (forall e, is_pdf pdf_file = true -> read_pdf pdf_file = Fails e ->
     (forall s0, fst (extract_tables_from_pdf pdf_file s0) = None)
     /\ exists s',
          process_pdf s pdf_file = Ok s'
          /\ appended_tables s' = appended_tables s
          /\ screen s'
             = screen s
               ++ [ st_error (lit "Error extracting tables from "
                              ++ name pdf_file ++ lit ": " ++ e) ]
          /\ foldM process_pdf (pdf_file :: rest) s = foldM process_pdf rest s')
  /\ (is_pdf pdf_file = false ->
      exists s',
        process_pdf s pdf_file = Ok s'
        /\ appended_tables s' = appended_tables s
        /\ pattern_values_list s' = pattern_values_list s
        /\ screen s'
           = screen s
             ++ [ st_warning (lit "Skipping non-PDF file: " ++ name pdf_file) ]
        /\ foldM process_pdf (pdf_file :: rest) s = foldM process_pdf rest s').
Proof.
  split.
  - intros e Hpdf Hfail. split.
    + intros s0. unfold extract_tables_from_pdf. now rewrite Hfail.
    + cbn [foldM]. unfold process_pdf. fold (is_pdf pdf_file). rewrite Hpdf.
      cbn [negb].
      pose proof (pattern_values_not_empty (page_texts pdf_file)) as Hpv.
      destruct (read_and_extract_patterns (page_texts pdf_file) patterns)
        as [|p pv]; [congruence|].
      unfold extract_tables_from_pdf. rewrite Hfail.
      eexists. split; [reflexivity|]. split; [reflexivity|].
      split; [|reflexivity].
      cbn [say append_pattern_values screen]. now rewrite f_four.
  - intros Hpdf. cbn [foldM]. unfold process_pdf. fold (is_pdf pdf_file).
    rewrite Hpdf. cbn [negb].
    eexists. split; [reflexivity|]. split; [reflexivity|].
    split; [reflexivity|]. split; [|reflexivity].
    cbn [say screen]. now rewrite f_two.
Qed.

Lemma bad_document_does_not_stop_batch_witness :
  is_pdf unreadable_notice = true
  /\ is_pdf spreadsheet = false
  /\ (exists s',
        process_pdf initial_state unreadable_notice = Ok s'
        /\ appended_tables s' = appended_tables initial_state
        /\ screen s'
           = screen initial_state
             ++ [ st_error (lit "Error extracting tables from "
                            ++ name unreadable_notice ++ lit ": "
                            ++ lit "java.io.IOException") ]
        /\ foldM process_pdf [unreadable_notice; notice] initial_state
           = foldM process_pdf [notice] s')
  /\ (exists s',
        process_pdf initial_state spreadsheet = Ok s'
        /\ appended_tables s' = appended_tables initial_state
        /\ pattern_values_list s' = pattern_values_list initial_state
        /\ screen s'
           = screen initial_state
             ++ [ st_warning (lit "Skipping non-PDF file: " ++ name spreadsheet) ]
        /\ foldM process_pdf [spreadsheet; notice] initial_state
           = foldM process_pdf [notice] s').
Proof.
  split; [reflexivity|]. split; [reflexivity|]. split.
  - apply (proj1 (bad_document_does_not_stop_batch
                    initial_state unreadable_notice [notice])
             (lit "java.io.IOException")); reflexivity.
  - apply (proj2 (bad_document_does_not_stop_batch
                    initial_state spreadsheet [notice])); reflexivity.
Defined.

(** The batch of the two failing files and a notice still ends with the
    rows of the notice. *)
Example batch_survives_bad_documents :
  exists out joined,
    main [unreadable_notice; spreadsheet; notice] = Ok out
    /\ written out = Some (Merged joined)
    /\ map (fun j => option_map (fun r => Filename (item r)) (table_columns j)) joined
       = [ None; Some (lit "notice.pdf"); Some (lit "notice.pdf");
           Some (lit "notice.pdf") ].
Proof.
  eexists. eexists. split; [vm_compute; reflexivity|].
  split; [vm_compute; reflexivity|]. reflexivity.
Qed.

(** ** The last row of a batch *)



(** A notice whose table ends with a land item: [main] writes that item
    with a missing PID. *)
Example open_ended_notice_result :
  exists out joined,
    main [open_ended_notice] = Ok out
    /\ written out = Some (Merged joined)
    /\ map (fun j => option_map
                       (fun r => (Land_Item_No (item r),
                                  Land_Item_and_Property_ID (item r), PID r))
                       (table_columns j)) joined
       = [ Some (Some (lit "1"), Some (lit "LOT 5"), Some (lit "PID 11111"));
           Some (Some (lit "2"), Some (lit "LOT 6"), None) ].
Proof.
  eexists. eexists. split; [vm_compute; reflexivity|].
  split; [vm_compute; reflexivity|]. reflexivity.
Qed.

(** * Further properties of the code *)

(** ** The repair of lines 83 and 84 *)

Lemma repairable_iff (row : NormalizedRow) :
  repairable row = true <-> ~ unrepairable row.
Proof.
  unfold repairable, unrepairable.
  destruct (Year_1 row) as [y1|], (Year_2 row) as [y2|], (Year_3 row) as [y3|];
    split; try discriminate; try reflexivity;
    try (intros _ [(H1 & H2 & H3)|(H1 & H2)]; congruence);
    intros H; elim H; first [ left; repeat split; congruence
                            | right; repeat split; congruence ].
Qed.

(** X1: the repair of a frame returns exactly when no row of the frame
    has "Year 3" and "Year 1" missing beside a present "Year 2", or
    "Year 2" missing beside a present "Year 1"; otherwise it raises
    TypeError, and nothing else. *)
Theorem repair_returns_iff (t : list NormalizedRow) :
  ((exists t', repair t = Ok t') <-> Forall (fun row => ~ unrepairable row) t)
  /\ (forall e, repair t = Raise e ->
        e = TypeError /\ Exists unrepairable t).
Proof.
  rewrite repair_rowwise. split; [split|].
  - intros [t' H]. apply mapM_Ok_Forall2 in H.
    induction H as [|row row' l l' Hrow _ IH]; constructor; [|exact IH].
    apply repairable_iff. apply repair_row_total. now exists row'.
  - intros H. apply mapM_total. intros row Hin.
    apply repair_row_total. apply repairable_iff.
    rewrite Forall_forall in H. now apply H.
  - intros e H. apply mapM_Raise in H as (row & Hin & Hrow). split.
    + now apply (repair_row_exn row).
    + apply Exists_exists. exists row. split; [exact Hin|].
      destruct (repairable row) eqn:E.
      * apply repair_row_total in E as [row' E]. congruence.
      * unfold repairable in E. unfold unrepairable.
        destruct (Year_1 row) as [y1|], (Year_2 row) as [y2|],
                 (Year_3 row) as [y3|]; try discriminate E;
          first [ left; repeat split; congruence
                | right; repeat split; congruence ].
Qed.

Lemma slice_last_suffix (s : str) (n : nat) :
  exists pre, s = pre ++ slice_last s n.
Proof.
  unfold slice_last. destruct (n =? 0).
  - now exists [].
  - exists (firstn (length s - n) s). symmetry. apply firstn_skipn.
Qed.

Lemma firstn_twice (s : str) (n : nat) : firstn n (firstn n s) = firstn n s.
Proof. rewrite firstn_firstn. now rewrite Nat.min_id. Qed.

(** What a repaired row is made of, and that repairing it again changes
    nothing. *)
Lemma repair_row_result (row row' : NormalizedRow) :
  repair_row row = Ok row' ->
  same_but_years row row'
  /\ prefix_cell (Year_2 row') (Year_2 row)
  /\ (Year_3 row' = Year_3 row
      \/ (Year_3 row = None /\ suffix_cell (Year_3 row') (Year_2 row)))
  /\ repair_row row' = Ok row'.
Proof.
  destruct row as [a b c d e g [y1|] [y2|] [y3|] h fn];
    unfold repair_row, year3_lambda, year2_lambda, len, last_chars, first_chars,
      notna, isna;
    cbn [Year_1 Year_2 Year_3 set_Year_3 set_Year_2 andb negb bind str_of];
    intros H; try discriminate H; injection H as <-;
    unfold same_but_years, prefix_cell, suffix_cell, slice_to;
    cbn [Land_Item_No Land_Item_and_Property_ID Notes Pct_Owned
         Land_Taxable_Value Surcharge_Taxable_Value Year_1 Year_2 Year_3
         Average_Land_Value Filename andb negb bind str_of];
    (split; [now repeat split|]);
    (split; [first [ exact I
                   | exists []; symmetry; apply app_nil_r
                   | exists (skipn (length y1) y2); symmetry; apply firstn_skipn ]|]);
    (split; [|simpl; rewrite ?firstn_twice; reflexivity]);
    first [ left; reflexivity
          | right; split; [reflexivity | apply slice_last_suffix] ].
Qed.

(** X2: repairing a repaired frame changes nothing: when lines 83 and 84
    return a frame, running them on that frame returns it again. *)
Theorem repair_idempotent (t t' : list NormalizedRow) :
  repair t = Ok t' -> repair t' = Ok t'.
Proof.
  rewrite !repair_rowwise. intros H. apply mapM_Ok_Forall2 in H.
  apply mapM_Ok_Forall2.
  induction H as [|row row' l l' Hrow _ IH]; constructor; [|exact IH].
  now apply repair_row_result in Hrow.
Qed.

Lemma repair_idempotent_witness :
  repair [year_row (Some (lit "2022")) (Some (lit "20222023")) None]
  = Ok [year_row (Some (lit "2022")) (Some (lit "2022")) (Some (lit "2023"))]
  /\ repair [year_row (Some (lit "2022")) (Some (lit "2022")) (Some (lit "2023"))]
     = Ok [year_row (Some (lit "2022")) (Some (lit "2022")) (Some (lit "2023"))].
Proof.
  split; [reflexivity|].
  apply (repair_idempotent
           [year_row (Some (lit "2022")) (Some (lit "20222023")) None]).
  reflexivity.
Defined.

(** X3: a frame that lines 83 and 84 return has the rows of the frame
    they were given, one for one and in order, and each differs from its
    original in "Year 2" and "Year 3" only: the new "Year 2" is a prefix
    of the old one (missing where it was missing), and the new "Year 3" is
    the old one or, where that was missing, a suffix of the old
    "Year 2".  The repair invents no character. *)
Theorem repair_keeps_rows (t t' : list NormalizedRow) :
  repair t = Ok t' ->
  length t' = length t
  /\ Forall2
       (fun row row' =>
          same_but_years row row'
          /\ prefix_cell (Year_2 row') (Year_2 row)
          /\ (Year_3 row' = Year_3 row
              \/ (Year_3 row = None /\ suffix_cell (Year_3 row') (Year_2 row))))
       t t'.
Proof.
  rewrite repair_rowwise. intros H. apply mapM_Ok_Forall2 in H. split.
  - symmetry. now apply Forall2_length in H.
  - induction H as [|row row' l l' Hrow _ IH]; constructor; [|exact IH].
    apply repair_row_result in Hrow. tauto.
Qed.

Lemma repair_keeps_rows_witness :
  repair [year_row (Some (lit "2022")) (Some (lit "20222023")) None]
  = Ok [year_row (Some (lit "2022")) (Some (lit "2022")) (Some (lit "2023"))]
  /\ length [year_row (Some (lit "2022")) (Some (lit "2022")) (Some (lit "2023"))]
     = length [year_row (Some (lit "2022")) (Some (lit "20222023")) None].
Proof.
  split; [reflexivity|].
  apply (repair_keeps_rows
           [year_row (Some (lit "2022")) (Some (lit "20222023")) None]).
  reflexivity.
Defined.

(** X4: the split the repair is made for.  On a row whose "Year 3" is
    missing and whose "Year 2" holds two values run together, each as long
    as "Year 1", the repair puts the first into "Year 2" and the second
    into "Year 3": nothing of the merged cell is lost or doubled. *)
Theorem repair_splits_merged_cell (row : NormalizedRow) (y1 a b : str) :
  Year_1 row = Some y1 -> Year_2 row = Some (a ++ b) -> Year_3 row = None ->
  length a = length y1 -> length b = length y1 ->
  repair_row row = Ok (set_Year_2 (set_Year_3 row (Some b)) (Some a)).
Proof.
  intros H1 H2 H3 Ha Hb.
  assert (F : firstn (length y1) (a ++ b) = a).
  { rewrite <- Ha, firstn_app, firstn_all, Nat.sub_diag. cbn [firstn].
    apply app_nil_r. }
  assert (L : slice_last (a ++ b) (length y1) = b).
  { unfold slice_last. destruct (length y1 =? 0) eqn:E.
    - apply Nat.eqb_eq in E. rewrite E in Ha, Hb.
      apply length_zero_iff_nil in Ha, Hb. now subst a b.
    - rewrite length_app, Hb, Nat.add_sub, skipn_app, skipn_all,
        Nat.sub_diag. reflexivity. }
  unfold repair_row, year3_lambda. rewrite H3, H2, H1.
  cbn [isna negb andb len last_chars bind]. rewrite L.
  unfold year2_lambda. cbn [set_Year_3 Year_1 Year_2]. rewrite H1, H2.
  cbn [notna isna negb first_chars str_of bind]. unfold slice_to.
  now rewrite F.
Qed.

Lemma repair_splits_merged_cell_witness :
  Year_2 (year_row (Some (lit "950,000")) (Some (lit "960,000" ++ lit "970,000")) None)
  = Some (lit "960,000" ++ lit "970,000")
  /\ repair_row (year_row (Some (lit "950,000"))
                          (Some (lit "960,000" ++ lit "970,000")) None)
     = Ok (set_Year_2
             (set_Year_3
                (year_row (Some (lit "950,000"))
                          (Some (lit "960,000" ++ lit "970,000")) None)
                (Some (lit "970,000")))
             (Some (lit "960,000"))).
Proof.
  split; [reflexivity|].
  apply (repair_splits_merged_cell
           (year_row (Some (lit "950,000"))
                     (Some (lit "960,000" ++ lit "970,000")) None)
           (lit "950,000") (lit "960,000") (lit "970,000")); reflexivity.
Defined.

(** ** The values of a FieldMap *)

Lemma dict_get_Some_In (d : dict) (k v : str) :
  dict_get d k = Some v -> In (k, v) d.
Proof.
  induction d as [|[k' v'] d IH]; simpl; [discriminate|].
  destruct (str_eqb k' k) eqn:E.
  - apply str_eqb_eq in E. intros H. injection H as <-. subst k'. now left.
  - intros H. right. now apply IH.
Qed.

Lemma stripped_no_newline (g v : str) :
  stripped g v -> ~ In newline g -> ~ In newline v.
Proof.
  intros (before & after & -> & _) Hno Hin. apply Hno.
  apply in_or_app. right. apply in_or_app. now left.
Qed.

(** X5: every value the Field Extractor stores is one line without white
    space at either end: it holds no newline, it neither starts nor ends
    with a white-space character, and stripping it again gives it back.
    Only the eight field names have a value. *)
Theorem field_values_are_stripped_lines (pages : list str) (name v : str) :
  dict_get (read_and_extract_patterns pages patterns) name = Some v ->
  In name field_names
  /\ ~ In newline v
  /\ (forall c v', v = c :: v' -> isspace c = false)
  /\ (forall c v', v = v' ++ [c] -> isspace c = false)
  /\ strip v = v.
Proof.
  rewrite read_and_extract_patterns_eq. intros H.
  apply dict_get_Some_In in H. apply in_map_iff in H as ([n label] & Hv & Hin).
  cbn [fst snd] in Hv. injection Hv as -> <-.
  split.
  { change field_names with (map fst field_labels).
    now apply (in_map fst) in Hin. }
  assert (Hs : exists g, ~ In newline g
                         /\ stripped g match search_label label (document_text pages) with
                                       | Some group1 => strip group1
                                       | None => lit ""
                                       end).
  { pose proof (search_label_spec label (document_text pages)) as Hspec.
    destruct (search_label label (document_text pages)) as [g|].
    - destruct Hspec as (pre & m & rest & _ & _ & _ & Hline).
      exists g. split; [apply Hline | apply strip_spec].
    - exists []. split; [intros []|]. exists [], [].
      split; [reflexivity|]. split; [reflexivity|]. split; [reflexivity|].
      split; [discriminate|]. intros c v' H. now destruct v'. }
  destruct Hs as (g & Hno & Hstr).
  split; [now apply (stripped_no_newline g)|].
  destruct Hstr as (before & after & Hg & Hb & Ha & Hfirst & Hlast).
  split; [exact Hfirst|]. split; [exact Hlast|].
  symmetry. apply stripped_unique. exists [], [].
  rewrite app_nil_r. repeat split; assumption.
Qed.

Lemma field_values_are_stripped_lines_witness :
  dict_get (read_and_extract_patterns (page_texts notice) patterns) (lit "Name")
  = Some (lit "A Person")
  /\ ~ In newline (lit "A Person")
  /\ strip (lit "A Person") = lit "A Person".
Proof.
  assert (H : dict_get (read_and_extract_patterns (page_texts notice) patterns)
                       (lit "Name") = Some (lit "A Person"))
    by (vm_compute; reflexivity).
  split; [exact H|].
  destruct (field_values_are_stripped_lines
              (page_texts notice) (lit "Name") (lit "A Person") H)
    as (_ & Hno & _ & _ & Hstrip).
  now split.
Defined.

(** ** The loop over the uploaded files *)

Lemma endswith_iff (s p : str) : endswith s p = true <-> exists base, s = base ++ p.
Proof.
  unfold endswith. rewrite startswith_iff. split.
  - intros [t H]. exists (rev t).
    rewrite <- (rev_involutive s), H, rev_app_distr, rev_involutive. reflexivity.
  - intros [base ->]. exists (rev base). apply rev_app_distr.
Qed.

(** X6: the test of line 126 reads the end of the name and ignores the
    case of its letters: a file is processed exactly when its name ends
    in four characters that lower to ".pdf". *)
Theorem is_pdf_iff (pdf_file : UploadedFile) :
  is_pdf pdf_file = true
  <-> exists base ext, name pdf_file = base ++ ext /\ lower ext = lit ".pdf".
Proof.
  unfold is_pdf. rewrite endswith_iff. split.
  - intros [b H]. unfold lower in H.
    apply map_eq_app in H as (base & ext & Hn & _ & Hext).
    now exists base, ext.
  - intros (base & ext & -> & Hext). exists (lower base).
    now rewrite lower_app, Hext.
Qed.

Lemma keys_of_field_map (pages : list str) :
  keys (read_and_extract_patterns pages patterns) = field_names.
Proof. rewrite read_and_extract_patterns_eq. unfold keys. now rewrite map_map. Qed.

Lemma process_pdf_field_map (s s' : state) (pdf_file : UploadedFile) :
  process_pdf s pdf_file = Ok s' ->
  pattern_values_list s'
  = pattern_values_list s ++ (if is_pdf pdf_file then [field_map_of pdf_file] else []).
Proof.
  unfold process_pdf. fold (is_pdf pdf_file).
  destruct (is_pdf pdf_file); cbn [negb].
  - assert (Hd : dict_set (read_and_extract_patterns (page_texts pdf_file) patterns)
                          (lit "Filename") (name pdf_file)
                 = field_map_of pdf_file).
    { apply dict_set_fresh. rewrite keys_of_field_map.
      cbn [field_names In]. intuition discriminate. }
    pose proof (pattern_values_not_empty (page_texts pdf_file)) as Hpv.
    destruct (read_and_extract_patterns (page_texts pdf_file) patterns)
      as [|p pv] eqn:Epv; [congruence|]. clear Hpv. rewrite Hd.
    unfold extract_tables_from_pdf.
    destruct (read_pdf pdf_file) as [[|table tables]|e].
    + intros H. now injection H as <-.
    + destruct (filter_tables_by_first_cell_value (table :: tables) (lit "Land"))
        as [|ft fts].
      * intros H. now injection H as <-.
      * intros H. apply process_and_append_tables_adds in H as [H _].
        now rewrite H.
    + intros H. now injection H as <-.
  - intros H. injection H as <-. cbn [say pattern_values_list]. now rewrite app_nil_r.
Qed.

Lemma field_maps_from (pdf_files : list UploadedFile) (s s' : state) :
  foldM process_pdf pdf_files s = Ok s' ->
  pattern_values_list s'
  = pattern_values_list s ++ map field_map_of (filter is_pdf pdf_files).
Proof.
  revert s. induction pdf_files as [|pdf_file pdf_files IH]; intros s;
    cbn [foldM filter].
  - intros H. injection H as <-. cbn [map]. now rewrite app_nil_r.
  - destruct (process_pdf s pdf_file) as [s1|e] eqn:E; cbn [bind]; [|discriminate].
    intros H. apply IH in H. apply process_pdf_field_map in E.
    rewrite H, E. destruct (is_pdf pdf_file); cbn [map].
    + now rewrite <- app_assoc.
    + now rewrite app_nil_r.
Qed.

(** X7: after the loop, the list of FieldMaps holds one entry for every
    PDF-named file of the upload and for no other, in upload order; each
    is the eight extracted values followed by the key "Filename" with the
    name of the file.  Every collected table row carries the name of a
    PDF-named file of the upload. *)
Theorem field_maps_of_batch (pdf_files : list UploadedFile) (s' : state) :
  foldM process_pdf pdf_files initial_state = Ok s' ->
  pattern_values_list s' = map field_map_of (filter is_pdf pdf_files)
  /\ Forall (fun d => keys d = field_names ++ [lit "Filename"])
            (pattern_values_list s')
  /\ Forall (Forall (fun row =>
                       exists pdf_file,
                         In pdf_file pdf_files /\ is_pdf pdf_file = true
                         /\ Filename row = name pdf_file))
            (appended_tables s').
Proof.
  intros Hloop. pose proof (field_maps_from pdf_files initial_state s' Hloop) as Hpv.
  cbn [initial_state pattern_values_list app] in Hpv.
  split; [exact Hpv|]. split.
  - rewrite Hpv. apply Forall_map. apply Forall_forall. intros pdf_file _.
    unfold field_map_of, keys. rewrite map_app.
    fold (keys (read_and_extract_patterns (page_texts pdf_file) patterns)).
    now rewrite keys_of_field_map.
  - destruct (collected_batch pdf_files [] initial_state s') as [_ Hrows];
      [split; [reflexivity | constructor] | exact Hloop |].
    eapply Forall_impl; [|exact Hrows]. intros t Ht.
    eapply Forall_impl; [|exact Ht]. intros row Hrow. cbn [app] in Hrow.
    apply in_map_iff in Hrow as (pdf_file & Hname & Hin).
    apply filter_In in Hin as [Hin Hpdf]. now exists pdf_file.
Qed.

Lemma field_maps_of_batch_witness :
  foldM process_pdf [notice; blank_notice] initial_state = Ok example_state
  /\ pattern_values_list example_state
     = map field_map_of (filter is_pdf [notice; blank_notice]).
Proof.
  assert (H : foldM process_pdf [notice; blank_notice] initial_state
              = Ok example_state) by (vm_compute; reflexivity).
  split; [exact H|].
  apply (field_maps_of_batch [notice; blank_notice] example_state H).
Defined.

(** ** The loop over the tables of one document *)

(** X8: when the loop over the selected tables of a document returns, it
    has appended one frame for every table of exactly 10 columns, in the
    order of the tables, each the repaired rows of the table after its
    first three; it has shown one warning for every other table and one
    progress line for every table, in table order; the FieldMaps are
    untouched. *)
Theorem tables_are_appended_in_order
    (filtered_tables : list DataFrame) (pdf_filename : str) (s s' : state) :
  process_and_append_tables filtered_tables pdf_filename s = Ok s' ->
  (exists added,
     appended_tables s' = appended_tables s ++ added
     /\ Forall2
          (fun table t =>
             repair (map (canonical pdf_filename) (skipn 3 (data table))) = Ok t)
          (filter (fun table => length (columns table) =? 10) filtered_tables)
          added)
  /\ screen s' = screen s ++ flat_map (shown_for pdf_filename) filtered_tables
  /\ pattern_values_list s' = pattern_values_list s.
Proof.
  unfold process_and_append_tables. revert s.
  induction filtered_tables as [|table tables IH]; intros s; cbn [foldM].
  - intros H. injection H as <-. split; [|split; [|reflexivity]].
    + exists []. split; [now rewrite app_nil_r | constructor].
    + cbn [flat_map]. now rewrite app_nil_r.
  - destruct (process_table pdf_filename s table) as [s1|e] eqn:E;
      cbn [bind]; [|discriminate].
    intros H. apply IH in H as ((added & Happ & Hall) & Hscreen & Hpv).
    unfold process_table in E. rewrite f_two, f_three in E.
    cbn [iloc_from columns data] in E.
    cbn [filter flat_map]. unfold shown_for at 1.
    destruct (length (columns table) =? 10).
    + destruct (repair (map (canonical pdf_filename) (skipn 3 (data table))))
        as [t|e] eqn:Er; cbn [bind] in E; [|discriminate].
      injection E as <-.
      split; [|split; [|exact Hpv]].
      * exists (t :: added). rewrite Happ. cbn [say append_table appended_tables].
        rewrite <- app_assoc. split; [reflexivity | now constructor].
      * rewrite Hscreen. cbn [say append_table screen].
        now rewrite <- !app_assoc.
    + cbn [bind] in E. injection E as <-.
      split; [|split; [|exact Hpv]].
      * now exists added.
      * rewrite Hscreen. cbn [say screen]. now rewrite <- !app_assoc.
Qed.

Lemma tables_are_appended_in_order_witness :
  exists s',
    process_and_append_tables [land_table] (lit "notice.pdf") initial_state = Ok s'
    /\ screen s'
       = screen initial_state ++ flat_map (shown_for (lit "notice.pdf")) [land_table].
Proof.
  eexists. split; [vm_compute; reflexivity|].
  eapply (tables_are_appended_in_order [land_table] (lit "notice.pdf")
            initial_state).
  vm_compute. reflexivity.
Defined.

(** ** What stops a batch *)

Lemma repair_exn (t : list NormalizedRow) (e : exn) :
  repair t = Raise e -> e = TypeError.
Proof.
  rewrite repair_rowwise. intros H. apply mapM_Raise in H as (row & _ & H).
  now apply (repair_row_exn row).
Qed.

Lemma process_table_exn (pdf_filename : str) (s : state) (table : DataFrame) (e : exn) :
  process_table pdf_filename s table = Raise e -> e = TypeError.
Proof.
  unfold process_table. destruct (length (columns (iloc_from table 3)) =? 10).
  - destruct (repair (map (canonical pdf_filename) (data (iloc_from table 3))))
      as [t|e'] eqn:E; cbn [bind]; [discriminate|].
    intros H. injection H as <-. now apply (repair_exn _ _ E).
  - discriminate.
Qed.

Lemma foldM_exn {A S : Type} (g : S -> A -> py S) (l : list A) (s : S) (e : exn) :
  (forall s a e', g s a = Raise e' -> e' = TypeError) ->
  foldM g l s = Raise e -> e = TypeError.
Proof.
  intros Hg. revert s. induction l as [|a l IH]; intros s; cbn [foldM];
    [discriminate|].
  destruct (g s a) as [s1|e1] eqn:E; cbn [bind].
  - apply IH.
  - intros H. injection H as <-. now apply (Hg s a).
Qed.

Lemma foldM_fails {A S : Type} (g : S -> A -> py S) (l : list A) (a : A) :
  In a l -> (forall s, exists e, g s a = Raise e) ->
  forall s, exists e, foldM g l s = Raise e.
Proof.
  intros Hin Ha. induction l as [|x l IH]; [contradiction|].
  intros s. cbn [foldM]. destruct Hin as [->|Hin].
  - destruct (Ha s) as [e ->]. now exists e.
  - destruct (g s x) as [s1|e1]; cbn [bind]; [now apply IH | now exists e1].
Qed.

Lemma process_pdf_exn (s : state) (pdf_file : UploadedFile) (e : exn) :
  process_pdf s pdf_file = Raise e -> e = TypeError.
Proof.
  unfold process_pdf.
  destruct (negb (endswith (lower (name pdf_file)) (lit ".pdf"))); [discriminate|].
  destruct (read_and_extract_patterns (page_texts pdf_file) patterns);
    (destruct (extract_tables_from_pdf pdf_file _) as [[[|table tables]|] s2];
     [discriminate| |discriminate]);
    (destruct (filter_tables_by_first_cell_value (table :: tables) (lit "Land"));
     [discriminate|]);
    unfold process_and_append_tables; apply foldM_exn;
    intros s0 a e'; apply process_table_exn.
Qed.

Lemma process_table_fails
    (pdf_filename : str) (s : state) (table : DataFrame) (r : list cell) :
  length (columns table) = 10 -> In r (skipn 3 (data table)) ->
  unrepairable (canonical pdf_filename r) ->
  exists e, process_table pdf_filename s table = Raise e.
Proof.
  intros H10 Hr Hbad. rewrite (process_table_ten pdf_filename s table H10).
  rewrite repair_rowwise.
  destruct (repair_row (canonical pdf_filename r)) as [row'|e] eqn:E.
  - assert (Hok : repairable (canonical pdf_filename r) = true)
      by (apply repair_row_total; now exists row').
    apply repairable_iff in Hok. contradiction.
  - destruct (mapM_fails repair_row
                (map (canonical pdf_filename) (skipn 3 (data table)))
                (canonical pdf_filename r) e) as [e' He'].
    + now apply in_map.
    + exact E.
    + rewrite He'. now exists e'.
Qed.

Lemma spoils_fails (s : state) (pdf_file : UploadedFile) :
  spoils pdf_file -> exists e, process_pdf s pdf_file = Raise e.
Proof.
  intros (Hpdf & tables & table & r & Hread & Hsel & H10 & Hr & Hbad).
  unfold process_pdf. fold (is_pdf pdf_file). rewrite Hpdf. cbn [negb].
  pose proof (pattern_values_not_empty (page_texts pdf_file)) as Hpv.
  destruct (read_and_extract_patterns (page_texts pdf_file) patterns)
    as [|p pv]; [congruence|].
  unfold extract_tables_from_pdf. rewrite Hread.
  destruct tables as [|t0 ts]; [contradiction|].
  destruct (filter_tables_by_first_cell_value (t0 :: ts) (lit "Land"))
    as [|ft fts] eqn:Ef; [contradiction|].
  unfold process_and_append_tables.
  apply (foldM_fails (process_table (name pdf_file)) (ft :: fts) table Hsel).
  intros s0. now apply (process_table_fails (name pdf_file) s0 table r).
Qed.

(** X9: one row that the repair cannot go through stops the whole batch.
    If any uploaded document has such a row in a selected 10-column table,
    [main] raises TypeError and shows no result, whatever the other
    documents hold. *)
Theorem one_bad_row_aborts_batch
    (pdf_files : list UploadedFile) (pdf_file : UploadedFile) :
  In pdf_file pdf_files -> spoils pdf_file ->
  main pdf_files = Raise TypeError.
Proof.
  intros Hin Hbad. unfold main.
  destruct pdf_files as [|x files]; [contradiction|].
  destruct (foldM_fails process_pdf (x :: files) pdf_file Hin
              (fun s => spoils_fails s pdf_file Hbad) initial_state) as [e He].
  rewrite He. cbn [bind]. f_equal.
  apply (foldM_exn process_pdf (x :: files) initial_state e); [|exact He].
  intros s a e'. apply process_pdf_exn.
Qed.

Lemma spoiled_notice_spoils : spoils spoiled_notice.
Proof.
  split; [reflexivity|].
  eexists. eexists. eexists.
  split; [reflexivity|]. split; [left; reflexivity|].
  split; [reflexivity|]. split; [left; reflexivity|].
  left. repeat split; cbn; congruence.
Qed.

Lemma one_bad_row_aborts_batch_witness :
  In spoiled_notice [notice; spoiled_notice; blank_notice]
  /\ main [notice; spoiled_notice; blank_notice] = Raise TypeError.
Proof.
  assert (H : In spoiled_notice [notice; spoiled_notice; blank_notice])
    by (right; left; reflexivity).
  split; [exact H|].
  exact (one_bad_row_aborts_batch [notice; spoiled_notice; blank_notice]
           spoiled_notice H spoiled_notice_spoils).
Defined.

(** ** What main shows *)

Lemma foldM_shows_no_result {A : Type} (g : state -> A -> py state) (l : list A) :
  shows_no_result g ->
  forall s s', foldM g l s = Ok s' ->
    exists shown, screen s' = screen s ++ shown /\ no_result shown.
Proof.
  intros Hg. induction l as [|a l IH]; intros s s'; cbn [foldM].
  - intros H. injection H as <-. exists []. split; [now rewrite app_nil_r | constructor].
  - destruct (g s a) as [s1|e] eqn:E; cbn [bind]; [|discriminate].
    intros H. apply IH in H as (shown2 & H2 & Hq2).
    apply Hg in E as (shown1 & H1 & Hq1).
    exists (shown1 ++ shown2). split.
    + now rewrite H2, H1, app_assoc.
    + now apply Forall_app.
Qed.

Lemma process_table_shows (pdf_filename : str) :
  shows_no_result (process_table pdf_filename).
Proof.
  intros s table s'. unfold process_table.
  destruct (length (columns (iloc_from table 3)) =? 10).
  - destruct (repair (map (canonical pdf_filename) (data (iloc_from table 3))))
      as [t|e]; cbn [bind]; [|discriminate].
    intros H. injection H as <-. eexists. split; [reflexivity|].
    repeat constructor.
  - cbn [bind]. intros H. injection H as <-. eexists. split.
    + cbn [say screen]. rewrite <- app_assoc. reflexivity.
    + repeat constructor.
Qed.

Lemma process_pdf_shows : shows_no_result process_pdf.
Proof.
  intros s pdf_file s'. unfold process_pdf.
  destruct (negb (endswith (lower (name pdf_file)) (lit ".pdf"))).
  { intros H. injection H as <-. eexists. split; [reflexivity|]. repeat constructor. }
  set (s1 := match read_and_extract_patterns (page_texts pdf_file) patterns with
             | [] => _
             | _ :: _ => _
             end).
  assert (H1 : exists shown, screen s1 = screen s ++ shown /\ no_result shown).
  { subst s1. destruct (read_and_extract_patterns (page_texts pdf_file) patterns).
    - eexists. split; [reflexivity|]. repeat constructor.
    - exists []. split; [cbn; now rewrite app_nil_r | constructor]. }
  destruct H1 as (shown1 & H1 & Hq1).
  assert (H2 : exists shown,
             screen (snd (extract_tables_from_pdf pdf_file s1)) = screen s1 ++ shown
             /\ no_result shown).
  { unfold extract_tables_from_pdf. destruct (read_pdf pdf_file).
    - exists []. split; [cbn; now rewrite app_nil_r | constructor].
    - eexists. split; [reflexivity|]. repeat constructor. }
  destruct (extract_tables_from_pdf pdf_file s1) as [tables s2].
  cbn [snd] in H2. destruct H2 as (shown2 & H2 & Hq2).
  assert (Hs2 : exists shown, screen s2 = screen s ++ shown /\ no_result shown).
  { exists (shown1 ++ shown2). split; [now rewrite H2, H1, app_assoc|].
    now apply Forall_app. }
  assert (Hthen : forall s3 shown3,
             screen s3 = screen s2 ++ shown3 -> no_result shown3 ->
             exists shown, screen s3 = screen s ++ shown /\ no_result shown).
  { intros s3 shown3 H3 Hq3. destruct Hs2 as (shown & Hs & Hq).
    exists (shown ++ shown3). split; [now rewrite H3, Hs, app_assoc|].
    now apply Forall_app. }
  destruct tables as [[|table tables]|].
  - intros H. now injection H as <-.
  - destruct (filter_tables_by_first_cell_value (table :: tables) (lit "Land"))
      as [|ft fts].
    + intros H. injection H as <-. eapply Hthen; [reflexivity|]. repeat constructor.
    + intros H. unfold process_and_append_tables in H.
      apply (foldM_shows_no_result _ _ (process_table_shows (name pdf_file)))
        in H as (shown3 & H3 & Hq3).
      now apply (Hthen s' shown3).
  - intros H. now injection H as <-.
Qed.

(** X10: [main] writes a result at most once, and last.  When it
    returns, either its output ends with the header "Final Result:" and
    one written frame, which is a merged one, and writes nothing before;
    or it writes nothing and ends with the warning that no tables were
    found; or nothing was uploaded and only the title is shown. *)
Theorem main_writes_once_and_last (pdf_files : list UploadedFile) (out : list st) :
  main pdf_files = Ok out ->
  (exists shown joined,
     out = shown ++ [ st_header (lit "Final Result:"); st_write (Merged joined) ]
     /\ no_result shown)
  \/ (exists shown,
        out = shown ++ [ st_warning (lit "No tables found in the provided PDF files.") ]
        /\ no_result shown)
  \/ (pdf_files = []
      /\ out = [ st_title (lit "Land Tax Assessment Data Extractor") ]).
Proof.
  unfold main. destruct pdf_files as [|x files].
  { intros H. injection H as <-. right. right. now split. }
  destruct (foldM process_pdf (x :: files) initial_state) as [s'|e] eqn:Hloop;
    cbn [bind]; [|discriminate].
  assert (Hshown : no_result (screen s')).
  { destruct (foldM_shows_no_result process_pdf (x :: files) process_pdf_shows
                initial_state s' Hloop) as (shown & Hs & Hq).
    rewrite Hs. apply Forall_app. split; [repeat constructor | exact Hq]. }
  destruct (appended_tables s') as [|t ts] eqn:Et.
  - unfold finish. rewrite Et. intros H. injection H as <-.
    right. left. now exists (screen s').
  - destruct (derive (concat (appended_tables s'))) as [rows|e] eqn:Hd.
    + rewrite (finish_merged s' rows); [|congruence| |exact Hd].
      * intros H. injection H as <-. left. now eexists (screen s'), _.
      * intros E. assert (Ht : appended_tables s' = [])
          by now apply (tables_need_field_map (x :: files) initial_state s').
        congruence.
    + unfold finish. rewrite Et. rewrite <- Et, Hd. discriminate.
Qed.

Lemma main_writes_once_and_last_witness :
  main [notice; blank_notice] = Ok example_output
  /\ ((exists shown joined,
         example_output
         = shown ++ [ st_header (lit "Final Result:"); st_write (Merged joined) ]
         /\ no_result shown)
      \/ (exists shown,
            example_output
            = shown ++ [ st_warning (lit "No tables found in the provided PDF files.") ]
            /\ no_result shown)
      \/ ([notice; blank_notice] = []
          /\ example_output = [ st_title (lit "Land Tax Assessment Data Extractor") ])).
Proof.
  assert (H : main [notice; blank_notice] = Ok example_output)
    by (vm_compute; reflexivity).
  split; [exact H|].
  exact (main_writes_once_and_last [notice; blank_notice] example_output H).
Defined.

(** ** The PID column across documents *)






(** ** The Selector on any target *)

(** X13: for any target, a table is selected exactly when it has a row
    and a column and the text of its first cell holds the target up to
    the case of letters.  A missing first cell is read as the text "nan":
    such a table is selected only for a target that occurs in "nan", so
    never for "Land".  With the empty target every rectangular table that
    has a row and a column is selected. *)
Theorem selector_any_target (tables : list DataFrame) (target : str) :
  (forall t,
      In t (filter_tables_by_first_cell_value tables target)
      <-> In t tables /\ data t <> [] /\ columns t <> []
          /\ exists c pre m post,
               iloc t 0 0 = Some c /\ str_of c = pre ++ m ++ post
               /\ lower m = lower target)
  /\ (forall t, iloc t 0 0 = Some None ->
        In t (filter_tables_by_first_cell_value tables target) ->
        exists pre post, lit "nan" = pre ++ lower target ++ post)
  /\ (forall t, iloc t 0 0 = Some None ->
        ~ In t (filter_tables_by_first_cell_value tables (lit "Land")))
  /\ (forall t, rectangular t ->
        (In t (filter_tables_by_first_cell_value tables [])
         <-> In t tables /\ data t <> [] /\ columns t <> [])).
Proof.
  assert (Hiff : forall tgt t,
             first_cell_matches tgt t = true
             <-> data t <> [] /\ columns t <> []
                 /\ exists c pre m post,
                      iloc t 0 0 = Some c /\ str_of c = pre ++ m ++ post
                      /\ lower m = lower tgt).
  { intros tgt t. unfold first_cell_matches, empty.
    rewrite !andb_true_iff, negb_true_iff, orb_false_iff, !Nat.eqb_neq, Nat.ltb_lt.
    split.
    - intros [[[Hrows Hcols] _] Hcell]. split; [|split].
      + intros E. now rewrite E in Hrows.
      + intros E. now rewrite E in Hcols.
      + destruct (iloc t 0 0) as [c|]; [|discriminate].
        apply negb_true_iff, Z.eqb_neq, find_lower_found in Hcell
          as (pre & m & post & Hc & Hm).
        now exists c, pre, m, post.
    - intros (Hrows & Hcols & c & pre & m & post & Hc & Hs & Hm). repeat split.
      + destruct (data t); [congruence | discriminate].
      + destruct (columns t); [congruence | discriminate].
      + destruct (columns t); [congruence | simpl; lia].
      + rewrite Hc. apply negb_true_iff, Z.eqb_neq, find_lower_found.
        now exists pre, m, post. }
  unfold filter_tables_by_first_cell_value.
  split; [|split; [|split]].
  - intros t. now rewrite filter_In, Hiff.
  - intros t Hcell Hin. apply filter_In in Hin as [_ Hp].
    unfold first_cell_matches in Hp. rewrite Hcell in Hp.
    rewrite !andb_true_iff in Hp. destruct Hp as [_ Hp].
    apply negb_true_iff, Z.eqb_neq, find_found in Hp. exact Hp.
  - intros t Hcell Hin. apply filter_In in Hin as [_ Hp].
    unfold first_cell_matches in Hp. rewrite Hcell in Hp.
    rewrite !andb_true_iff in Hp. destruct Hp as [_ Hp].
    vm_compute in Hp. discriminate.
  - intros t Hrect. rewrite filter_In, Hiff. split.
    + tauto.
    + intros (Hin & Hrows & Hcols). repeat split; try assumption.
      destruct (iloc_0_0_defined t Hrect) as [c Hc].
      { unfold empty. destruct (data t); [congruence|].
        destruct (columns t); [congruence | reflexivity]. }
      exists c, [], [], (str_of c). now repeat split.
Qed.

(** ** The order of the final result *)

Lemma table_rows_merge_left (left : list dict) (right : list ResultRow) :
  table_rows (merge_left left right) = flat_map (fun d => rows_of d right) left.
Proof.
  induction left as [|d left IH]; [reflexivity|].
  rewrite merge_left_cons. unfold table_rows in *. rewrite flat_map_app, IH.
  cbn [flat_map]. f_equal.
  destruct (rows_of d right) as [|r l]; [reflexivity|].
  generalize (r :: l). intros l0. induction l0 as [|x l0 IHl]; [reflexivity|].
  cbn [map flat_map table_columns app]. now rewrite IHl.
Qed.

Lemma str_eqb_neq (a b : str) : a <> b -> str_eqb a b = false.
Proof.
  intros H. destruct (str_eqb a b) eqn:E; [|reflexivity].
  apply str_eqb_eq in E. contradiction.
Qed.

Lemma in_order_groups {A : Type} (key : A -> str) (names ks : list str) :
  in_order names ks -> NoDup names ->
  forall l, map key l = ks ->
    flat_map (fun n => filter (fun x => str_eqb n (key x)) l) names = l.
Proof.
  induction 1 as [names|n names ks _ IH|n names ks Hnot _ IH]; intros Hnd l Hl.
  - apply map_eq_nil in Hl. subst l.
    induction names as [|n names IHn]; [reflexivity|].
    cbn [flat_map filter app]. apply IHn. now inversion Hnd.
  - destruct l as [|x l]; [discriminate|]. cbn [map] in Hl.
    injection Hl as Hx Hl. specialize (IH Hnd l Hl).
    assert (Hsame : flat_map (fun m => filter (fun y => str_eqb m (key y)) (x :: l)) names
                    = flat_map (fun m => filter (fun y => str_eqb m (key y)) l) names).
    { inversion Hnd as [|? ? Hnotin _]; subst.
      clear - Hnotin. induction names as [|m names IHm]; [reflexivity|].
      cbn [flat_map filter].
      rewrite (str_eqb_neq m (key x)) by (intros ->; apply Hnotin; now left).
      f_equal. apply IHm. intros Hin. apply Hnotin. now right. }
    cbn [flat_map] in IH |- *. rewrite Hsame. cbn [filter].
    rewrite Hx, (proj2 (str_eqb_eq n n) eq_refl). cbn [app]. f_equal. exact IH.
  - cbn [flat_map].
    assert (Hnone : filter (fun x => str_eqb n (key x)) l = []).
    { subst ks. clear - Hnot. induction l as [|x l IHl]; [reflexivity|].
      cbn [filter]. cbn [map] in Hnot.
      rewrite (str_eqb_neq n (key x)) by (intros ->; apply Hnot; now left).
      apply IHl. intros Hin. apply Hnot. now right. }
    rewrite Hnone. cbn [app]. apply IH; [now inversion Hnd | exact Hl].
Qed.

Lemma in_order_filter {A : Type} (key : A -> str) (p : A -> bool)
    (names ks : list str) :
  in_order names ks ->
  forall l, map key l = ks -> in_order names (map key (filter p l)).
Proof.
  induction 1 as [names|n names ks _ IH|n names ks Hnot _ IH]; intros l Hl.
  - apply map_eq_nil in Hl. subst l. constructor.
  - destruct l as [|x l]; [discriminate|]. cbn [map] in Hl.
    injection Hl as Hx Hl. cbn [filter]. destruct (p x).
    + cbn [map]. rewrite Hx. apply in_order_here. now apply IH.
    + now apply IH.
  - apply in_order_skip; [|now apply IH].
    intros Hin. apply Hnot. rewrite <- Hl.
    apply in_map_iff in Hin as (x & Hx & Hin). apply filter_In in Hin as [Hin _].
    apply in_map_iff. now exists x.
Qed.

Lemma in_order_append (names ks news : list str) (n : str) :
  in_order names ks -> ~ In n names -> Forall (eq n) news ->
  in_order (names ++ [n]) (ks ++ news).
Proof.
  intros H Hn Hnews.
  induction H as [names|m names ks _ IH|m names ks Hnot _ IH].
  - cbn [app]. induction names as [|m names IHn].
    + cbn [app]. induction Hnews as [|k news <- _ IHk]; constructor. exact IHk.
    + cbn [app]. apply in_order_skip.
      * intros Hin. rewrite Forall_forall in Hnews.
        apply Hnews in Hin. subst m. apply Hn. now left.
      * apply IHn. intros Hin. apply Hn. now right.
  - cbn [app]. apply in_order_here. now apply IH.
  - cbn [app]. apply in_order_skip.
    + intros Hin. apply in_app_or in Hin as [Hin|Hin]; [contradiction|].
      rewrite Forall_forall in Hnews. apply Hnews in Hin. subst m.
      apply Hn. now left.
    + apply IH. intros Hin. apply Hn. now right.
Qed.

(** The rows the loop collects come document by document. *)
Lemma rows_in_upload_order (pdf_files : list UploadedFile) (names : list str)
    (s s' : state) :
  in_order names (map Filename (concat (appended_tables s))) ->
  NoDup (names ++ map name (filter is_pdf pdf_files)) ->
  foldM process_pdf pdf_files s = Ok s' ->
  in_order (names ++ map name (filter is_pdf pdf_files))
           (map Filename (concat (appended_tables s'))).
Proof.
  revert names s. induction pdf_files as [|pdf_file pdf_files IH];
    intros names s Hord Hnd; cbn [foldM filter map].
  - intros H. injection H as <-. now rewrite app_nil_r.
  - destruct (process_pdf s pdf_file) as [s1|e] eqn:E; cbn [bind]; [|discriminate].
    intros H. apply process_pdf_adds in E. cbn [filter] in Hnd.
    destruct (is_pdf pdf_file).
    + destruct E as [_ (added & Happ & Hall)]. cbn [map] in Hnd |- *.
      replace (names ++ name pdf_file :: map name (filter is_pdf pdf_files))
        with ((names ++ [name pdf_file]) ++ map name (filter is_pdf pdf_files))
        in Hnd |- * by now rewrite <- app_assoc.
      apply (IH _ s1); [|exact Hnd|exact H].
      rewrite Happ, concat_app, map_app. apply in_order_append; [exact Hord| |].
      * apply NoDup_app_remove_r in Hnd. apply NoDup_remove_2 in Hnd.
        now rewrite app_nil_r in Hnd.
      * apply Forall_map. apply Forall_concat.
        eapply Forall_impl; [|exact Hall]. intros t Ht.
        eapply Forall_impl; [|exact Ht]. intros row Hrow. now symmetry.
    + destruct E as [_ Happ]. apply (IH _ s1); [now rewrite Happ|exact Hnd|exact H].
Qed.

Lemma derive_Ok (rows0 : list NormalizedRow) (rows : list ResultRow) :
  derive rows0 = Ok rows ->
  rows = dropna_Land_Item_No (map choose_PID (with_next rows0)).
Proof.
  intros H.
  assert (Hall : Forall (fun row => notna (Land_Item_and_Property_ID row) = true) rows0).
  { apply Forall_forall. intros row Hrow.
    destruct (Land_Item_and_Property_ID row) as [lot|] eqn:E; [reflexivity|].
    unfold derive in H. now rewrite (own_PID_missing rows0 row Hrow E) in H. }
  unfold derive in H. rewrite (own_PID_present rows0 Hall) in H.
  cbn [bind] in H. now injection H as <-.
Qed.

Lemma rows_of_names (field_maps : list dict) (names : list str)
    (rows : list ResultRow) :
  map filename_of field_maps = map Some names ->
  flat_map (fun d => rows_of d rows) field_maps
  = flat_map (fun n => filter (fun r => str_eqb n (Filename (item r))) rows) names.
Proof.
  revert names. induction field_maps as [|d field_maps IH]; intros [|n names] H;
    try discriminate H; [reflexivity|].
  cbn [map] in H. injection H as Hd H. cbn [flat_map]. rewrite (IH names H).
  f_equal. unfold rows_of, same_file. now rewrite Hd.
Qed.

Lemma merge_left_files (left : list dict) (right : list ResultRow) :
  Forall (fun j => match table_columns j with
                   | Some r => filename_of (fields j) = Some (Filename (item r))
                   | None => True
                   end)
         (merge_left left right).
Proof.
  induction left as [|d left IH]; [constructor|].
  rewrite merge_left_cons. apply Forall_app. split; [|exact IH].
  assert (H : Forall (fun r => same_file d r = true) (rows_of d right)).
  { apply Forall_forall. intros r Hr. now apply filter_In in Hr. }
  destruct (rows_of d right) as [|r l]; [repeat constructor|].
  apply Forall_map. eapply Forall_impl; [|exact H].
  intros r0 Hr0. cbn [table_columns fields]. unfold same_file in Hr0.
  destruct (filename_of d) as [k|]; [|discriminate].
  apply str_eqb_eq in Hr0. now subst k.
Qed.

(** X14: with distinct names for the PDF-named files, the join neither
    reorders, repeats nor drops a table row: the final result, read
    without its rows that have no table value, is the sequence of rows
    left after the drop, in their order; and every row stands under the
    FieldMap of its own file. *)
Theorem final_result_keeps_row_order
    (pdf_files : list UploadedFile) (s' : state) (rows : list ResultRow) :
  foldM process_pdf pdf_files initial_state = Ok s' ->
  appended_tables s' <> [] ->
  derive (concat (appended_tables s')) = Ok rows ->
  NoDup (map name (filter is_pdf pdf_files)) ->
  exists joined,
    main pdf_files
    = Ok (screen s' ++ [ st_header (lit "Final Result:"); st_write (Merged joined) ])
    /\ table_rows joined = rows
    /\ Forall (fun j => match table_columns j with
                        | Some r => filename_of (fields j) = Some (Filename (item r))
                        | None => True
                        end) joined.
Proof.
  intros Hloop Htables Hderive Hnd.
  exists (merge_left (pattern_values_list s') rows).
  split; [now apply main_merged|]. split; [|apply merge_left_files].
  rewrite table_rows_merge_left.
  destruct (collected_batch pdf_files [] initial_state s') as [Hnames _];
    [split; [reflexivity | constructor] | exact Hloop |].
  cbn [app] in Hnames. rewrite (rows_of_names _ _ rows Hnames).
  apply (in_order_groups (fun r => Filename (item r)) _
           (map (fun r => Filename (item r)) rows)); [|exact Hnd|reflexivity].
  rewrite (derive_Ok _ _ Hderive). unfold dropna_Land_Item_No.
  apply (in_order_filter (fun r => Filename (item r)) _ _
           (map Filename (concat (appended_tables s')))).
  - apply (rows_in_upload_order pdf_files [] initial_state s');
      [constructor | exact Hnd | exact Hloop].
  - rewrite map_map.
    rewrite <- (map_fst_with_next (concat (appended_tables s'))) at 2.
    rewrite map_map. reflexivity.
Qed.

Lemma final_result_keeps_row_order_witness :
  foldM process_pdf [notice; blank_notice] initial_state = Ok example_state
  /\ exists joined,
      main [notice; blank_notice]
      = Ok (screen example_state
            ++ [ st_header (lit "Final Result:"); st_write (Merged joined) ])
      /\ table_rows joined = example_rows.
Proof.
  assert (H1 : foldM process_pdf [notice; blank_notice] initial_state
               = Ok example_state) by (vm_compute; reflexivity).
  assert (H2 : appended_tables example_state <> []) by (vm_compute; discriminate).
  assert (H3 : derive (concat (appended_tables example_state)) = Ok example_rows)
    by (vm_compute; reflexivity).
  assert (H4 : NoDup (map name (filter is_pdf [notice; blank_notice]))).
  { change (NoDup [lit "notice.pdf"; lit "blank.pdf"]).
    constructor; [intros [H|[]]; discriminate H|].
    constructor; [intros []|]. constructor. }
  split; [exact H1|].
  destruct (final_result_keeps_row_order [notice; blank_notice] example_state
              example_rows H1 H2 H3 H4) as (joined & Hmain & Hrows & _).
  now exists joined.
Defined.

(** ** A batch of which no row is left *)



